(** * APOD desktop: the image cache of [apod_desktop.py] and [apod_api.py]

    A shallow embedding of the cache pipeline of the repository
    (metadata record, image download, SHA-256 content hash, single-table
    SQLite index, file-name derivation) with the properties its
    specification states about it.

    Conventions of the embedding.
    - A Python [str] is a [string], character by character, when the text
      is ASCII.  The character classes used by [str.strip], [str.upper] and
      the pattern [\W] are those of Python on code points below 128; Python
      classifies the characters beyond them by the Unicode database (a
      letter such as e-acute is in [\w], a no-break space is whitespace),
      which a [string] of 8-bit characters cannot follow.  So a statement
      that depends on the class of the characters of a title is made for
      ASCII titles ([StrSpec.ascii_text]), and says nothing of other
      titles.
    - A Python [bytes] is a [list byte].
    - A JSON object whose values are strings (the APOD record) and a Python
      [dict] are a [gmap string string]; [d[k]] is [getitem], which raises
      [KeyError] on an absent key.
    - A function that touches the database, the file system or the network
      is a state transformer over [world] that returns an [outcome]: a value
      or a raised exception.  [print] calls are not modelled. *)

From Stdlib Require Import ZArith List Bool Lia.
From Stdlib Require Import Strings.String Strings.Ascii Strings.Byte.
From stdpp Require Import base gmap strings list.

Open Scope string_scope.
Open Scope list_scope.
Open Scope Z_scope.

(* ===================================================================== *)
(** * Python's string methods, as far as the program uses them *)
(* ===================================================================== *)

Module PyStr.

(** [str.isspace] on one ASCII character: TAB, LF, VT, FF, CR, the four
    separators FS, GS, RS, US, and the space.  It is [false] from code 128
    on, where Python asks the Unicode database; what is stated of [strip] is
    stated for ASCII titles. *)
Definition isspace (c : ascii) : bool :=
  let n := nat_of_ascii c in
  ((9 <=? n)%nat && (n <=? 13)%nat) || ((28 <=? n)%nat && (n <=? 32)%nat).

Definition isdigit (c : ascii) : bool :=
  let n := nat_of_ascii c in (48 <=? n)%nat && (n <=? 57)%nat.

Definition isupper (c : ascii) : bool :=
  let n := nat_of_ascii c in (65 <=? n)%nat && (n <=? 90)%nat.

Definition islower (c : ascii) : bool :=
  let n := nat_of_ascii c in (97 <=? n)%nat && (n <=? 122)%nat.

(** The class [\w] of [re] on one ASCII character: a letter, a digit or
    the underscore.  It is [false] from code 128 on, where Python asks the
    Unicode database; what is stated of the pattern [\W] is stated for ASCII
    titles. *)
Definition is_word (c : ascii) : bool :=
  isupper c || islower c || isdigit c || Ascii.eqb c "_".

(** [s.lstrip()] *)
Fixpoint lstrip (s : string) : string :=
  match s with
  | EmptyString => EmptyString
  | String c s' => if isspace c then lstrip s' else s
  end.

(** [s.rstrip()] *)
Fixpoint rstrip (s : string) : string :=
  match s with
  | EmptyString => EmptyString
  | String c s' =>
      match rstrip s' with
      | EmptyString => if isspace c then EmptyString else String c EmptyString
      | r => String c r
      end
  end.

(** [s.strip()] *)
Definition strip (s : string) : string := rstrip (lstrip s).

(** [s.replace(old, new)] for a one-character [old]: every occurrence of
    the character is replaced, one by one. *)
Fixpoint replace (old : ascii) (new : string) (s : string) : string :=
  match s with
  | EmptyString => EmptyString
  | String c s' =>
      if Ascii.eqb c old then new +:+ replace old new s'
      else String c (replace old new s')
  end.

(** [re.sub(r'\W+', repl, s)]: each maximal run of characters outside [\w]
    is replaced by one copy of [repl].  [in_run] tells that the previous
    character was part of the run being replaced. *)
Fixpoint re_sub_nonword_runs (repl : string) (in_run : bool) (s : string) : string :=
  match s with
  | EmptyString => EmptyString
  | String c s' =>
      if is_word c then String c (re_sub_nonword_runs repl false s')
      else if in_run then re_sub_nonword_runs repl true s'
      else repl +:+ re_sub_nonword_runs repl true s'
  end.

Definition re_sub_W (repl : string) (s : string) : string :=
  re_sub_nonword_runs repl false s.

(** [s.split(sep)] for a one-character [sep]; the result is never empty
    ([''.split('.')] is [['']]). *)
Fixpoint split (sep : ascii) (s : string) : list string :=
  match s with
  | EmptyString => [EmptyString]
  | String c s' =>
      if Ascii.eqb c sep then EmptyString :: split sep s'
      else match split sep s' with
           | h :: t => String c h :: t
           | [] => [String c EmptyString]
           end
  end.

(** [l[-1]] on a list of strings that is not empty. *)
Definition last_item (l : list string) : string := List.last l EmptyString.

(** [sep.join(l)] *)
Fixpoint join (sep : string) (l : list string) : string :=
  match l with
  | [] => EmptyString
  | [x] => x
  | x :: l' => x +:+ sep +:+ join sep l'
  end.

(** [str.upper] on one ASCII character. *)
Definition upper_char (c : ascii) : ascii :=
  if islower c then ascii_of_nat (nat_of_ascii c - 32) else c.

(** [s.upper()] *)
Fixpoint upper (s : string) : string :=
  match s with
  | EmptyString => EmptyString
  | String c s' => String (upper_char c) (upper s')
  end.

(** [posixpath.join(a, b)], the two-argument [os.path.join] of a POSIX
    host. *)
Definition posixpath_join (a b : string) : string :=
  match b with
  | String "/" _ => b
  | _ =>
      match a with
      | EmptyString => b
      | _ => if String.eqb (last_item (split "/" a)) EmptyString
             then a +:+ b else a +:+ "/" +:+ b
      end
  end.

End PyStr.


(* ===================================================================== *)
(** * [hashlib.sha256]: SHA-256 over 32-bit words (FIPS 180-4) *)
(* ===================================================================== *)

Module Sha256.

(** A 32-bit word is a [Z] in [0, 2^32); every addition wraps. *)
Definition w32 (x : Z) : Z := x mod 4294967296.
Definition add32 (x y : Z) : Z := w32 (x + y).
Definition rotr (n x : Z) : Z :=
  Z.lor (Z.shiftr x n) (w32 (Z.shiftl x (32 - n))).
Definition shr (n x : Z) : Z := Z.shiftr x n.
Definition not32 (x : Z) : Z := 4294967295 - x.

Definition Ch (x y z : Z) : Z := Z.lxor (Z.land x y) (Z.land (not32 x) z).
Definition Maj (x y z : Z) : Z :=
  Z.lxor (Z.lxor (Z.land x y) (Z.land x z)) (Z.land y z).
Definition bsig0 (x : Z) : Z := Z.lxor (Z.lxor (rotr 2 x) (rotr 13 x)) (rotr 22 x).
Definition bsig1 (x : Z) : Z := Z.lxor (Z.lxor (rotr 6 x) (rotr 11 x)) (rotr 25 x).
Definition ssig0 (x : Z) : Z := Z.lxor (Z.lxor (rotr 7 x) (rotr 18 x)) (shr 3 x).
Definition ssig1 (x : Z) : Z := Z.lxor (Z.lxor (rotr 17 x) (rotr 19 x)) (shr 10 x).

(** The integer cube root, found bit by bit from bit 39 down. *)
Definition cbrt_step (n r : Z) (b : nat) : Z :=
  let r' := r + 2 ^ Z.of_nat b in
  if r' * r' * r' <=? n then r' else r.

Definition icbrt (n : Z) : Z :=
  List.fold_left (cbrt_step n) (List.rev (List.seq 0 40)) 0.

(** The first 64 primes. *)
Definition primes : list Z :=
  [2; 3; 5; 7; 11; 13; 17; 19; 23; 29; 31; 37; 41; 43; 47; 53; 59; 61; 67; 71;
   73; 79; 83; 89; 97; 101; 103; 107; 109; 113; 127; 131; 137; 139; 149; 151;
   157; 163; 167; 173; 179; 181; 191; 193; 197; 199; 211; 223; 227; 229; 233;
   239; 241; 251; 257; 263; 269; 271; 277; 281; 283; 293; 307; 311].

(** The round constants: the first 32 bits of the fractional parts of the
    cube roots of the first 64 primes. *)
Definition K : list Z :=
  Eval vm_compute in
    List.map (fun p => w32 (icbrt (p * 2 ^ 96))) primes.

(** The first 32 bits of the fractional part of the square root of [p]. *)
Definition sqrt_frac (p : Z) : Z := w32 (Z.sqrt (p * 2 ^ 64)).

(** The eight working words. *)
Record regs : Type := Regs { ra : Z; rb : Z; rc : Z; rd : Z; re : Z; rf : Z; rg : Z; rh : Z }.

(** The initial hash value: from the square roots of the first 8 primes. *)
Definition H0 : regs :=
  Eval vm_compute in
    Regs (sqrt_frac 2) (sqrt_frac 3) (sqrt_frac 5) (sqrt_frac 7)
         (sqrt_frac 11) (sqrt_frac 13) (sqrt_frac 17) (sqrt_frac 19).

Definition byte_val (b : byte) : Z := Z.of_N (Byte.to_N b).

(** Padding: the byte 0x80, zero bytes up to 56 modulo 64, and the length of
    the message in bits as a 64-bit big-endian integer. *)
Definition be_bytes (n : nat) (x : Z) : list Z :=
  List.map (fun i => Z.shiftr x (8 * Z.of_nat i) mod 256) (List.rev (List.seq 0 n)).

Definition pad (msg : list Z) : list Z :=
  let len := Z.of_nat (List.length msg) in
  let zeros := Z.to_nat ((55 - len) mod 64) in
  msg ++ [128] ++ List.repeat 0 zeros ++ be_bytes 8 (w32 (8 * len / 4294967296) * 4294967296 + w32 (8 * len)).

(** Big-endian 32-bit words of a byte list (a tail shorter than four bytes
    does not occur after padding and is dropped). *)
Fixpoint words (l : list Z) : list Z :=
  match l with
  | a :: b :: c :: d :: l' =>
      (((a * 256 + b) * 256 + c) * 256 + d) :: words l'
  | _ => []
  end.

(** The message schedule, newest word first: [extend n rw] adds [n] words
    to the reversed schedule [rw]. *)
Fixpoint extend (n : nat) (rw : list Z) : list Z :=
  match n with
  | O => rw
  | S n' =>
      let w := add32 (add32 (ssig1 (List.nth 1 rw 0)) (List.nth 6 rw 0))
                     (add32 (ssig0 (List.nth 14 rw 0)) (List.nth 15 rw 0)) in
      extend n' (w :: rw)
  end.

Definition schedule (block : list Z) : list Z :=
  List.rev (extend 48 (List.rev block)).

Definition round (s : regs) (kw : Z * Z) : regs :=
  let '(k, w) := kw in
  let t1 := add32 (add32 (add32 (rh s) (bsig1 (re s))) (add32 (Ch (re s) (rf s) (rg s)) k)) w in
  let t2 := add32 (bsig0 (ra s)) (Maj (ra s) (rb s) (rc s)) in
  Regs (add32 t1 t2) (ra s) (rb s) (rc s) (add32 (rd s) t1) (re s) (rf s) (rg s).

Definition compress (h : regs) (block : list Z) : regs :=
  let s := List.fold_left round (List.combine K (schedule block)) h in
  Regs (add32 (ra h) (ra s)) (add32 (rb h) (rb s)) (add32 (rc h) (rc s))
       (add32 (rd h) (rd s)) (add32 (re h) (re s)) (add32 (rf h) (rf s))
       (add32 (rg h) (rg s)) (add32 (rh h) (rh s)).

(** The 16-word blocks of a word list; [fuel] bounds the number of blocks. *)
Fixpoint blocks (fuel : nat) (ws : list Z) : list (list Z) :=
  match fuel, ws with
  | S fuel', _ :: _ => List.firstn 16 ws :: blocks fuel' (List.skipn 16 ws)
  | _, _ => []
  end.

Definition digest_regs (msg : list byte) : regs :=
  let ws := words (pad (List.map byte_val msg)) in
  List.fold_left compress (blocks (List.length ws) ws) H0.

(** One hexadecimal digit, lower case as [hexdigest] prints it. *)
Definition hex_digit (n : Z) : ascii :=
  List.nth (Z.to_nat (n mod 16))
    ["0"; "1"; "2"; "3"; "4"; "5"; "6"; "7"; "8"; "9"; "a"; "b"; "c"; "d"; "e"; "f"]%char
    "0"%char.

Definition hex8 (w : Z) (rest : string) : string :=
  String (hex_digit (Z.shiftr w 28)) (String (hex_digit (Z.shiftr w 24))
  (String (hex_digit (Z.shiftr w 20)) (String (hex_digit (Z.shiftr w 16))
  (String (hex_digit (Z.shiftr w 12)) (String (hex_digit (Z.shiftr w 8))
  (String (hex_digit (Z.shiftr w 4)) (String (hex_digit w) rest))))))).

(** [hashlib.sha256(msg).hexdigest()] *)
Definition hexdigest (msg : list byte) : string :=
  let h := digest_regs msg in
  hex8 (ra h) (hex8 (rb h) (hex8 (rc h) (hex8 (rd h)
  (hex8 (re h) (hex8 (rf h) (hex8 (rg h) (hex8 (rh h) EmptyString))))))).

End Sha256.

(* ===================================================================== *)
(** * Values, exceptions and the world the program runs in *)
(* ===================================================================== *)

(** The exceptions the modelled code can raise. *)
Inductive exn : Type :=
| KeyError (key : string)   (* [d[k]] with [k] absent *)
| TypeError                 (* subscripting [None] *)
| OperationalError.         (* sqlite3: the table does not exist *)

(** What a call ends with: a returned value or a raised exception. *)
Inductive outcome (A : Type) : Type :=
| Return (a : A)
| Raise (e : exn).
Arguments Return {A} a.
Arguments Raise {A} e.

(** [datetime.date] *)
Record date : Type := Date { year : Z; month : Z; day : Z }.

(** One row of the table [image_data]. *)
Record row : Type := Row {
  row_id : Z;
  row_title : string;
  row_explanation : string;
  row_file_path : string;
  row_sha256 : string }.

(** One call of [image_lib.save_image_file]. *)
Record save_call : Type := SaveCall {
  saved_path : string;
  saved_data : list byte;
  saved_ok : bool }.

(** The state outside the program.
    - [image_data]: the table of the cache database in rowid order, which is
      the order in which SQLite scans it; [None] while the table does not
      exist.
    - [download_calls]: the URLs handed to [image_lib.download_image],
      oldest first.
    - [save_calls]: the calls of [image_lib.save_image_file], oldest first.
    - [background]: the path last handed to
      [image_lib.set_desktop_background_image]. *)
Record world : Type := World {
  image_data : option (list row);
  download_calls : list string;
  save_calls : list save_call;
  background : option string }.

(** The answer of [requests.get]: the status code and the decoded JSON
    body. *)
Record response : Type := Response {
  status_code : Z;
  json : gmap string string }.

(** What the program does not decide itself: the remote API, the module
    [image_lib] (not part of the sources at hand; its functions are taken as
    given by their results) and the failure of an INSERT in the storage
    layer. *)
Record Env : Type := MkEnv {
  requests_get : string -> string -> date -> bool -> response;
  image_lib_download_image : string -> option (list byte);
  image_lib_save_image_file : list byte -> string -> bool;
  sqlite_insert_fails : bool }.

(** Stateful code: a transformer of the world with an outcome. *)
Definition M (A : Type) : Type := world -> outcome A * world.

Definition ret {A : Type} (a : A) : M A := fun w => (Return a, w).
Definition raise {A : Type} (e : exn) : M A := fun w => (Raise e, w).
Definition bind {A B : Type} (m : M A) (k : A -> M B) : M B :=
  fun w =>
    match m w with
    | (Return a, w') => k a w'
    | (Raise e, w') => (Raise e, w')
    end.

Declare Scope py_scope.
Delimit Scope py_scope with py.
Notation "x <- m ;; k" := (bind m (fun x => k))
  (at level 100, m at next level, right associativity) : py_scope.
Open Scope py_scope.

(** [d[k]] *)
Definition getitem {A : Type} (d : gmap string A) (k : string) : outcome A :=
  match d !! k with
  | Some v => Return v
  | None => Raise (KeyError k)
  end.

(** [d[k]] inside stateful code. *)
Definition getitemM {A : Type} (d : gmap string A) (k : string) : M A :=
  fun w => (getitem d k, w).

(* ===================================================================== *)
(** * [apod_api.py] *)
(* ===================================================================== *)

Module ApodApi.

Definition NASA_API_KEY : string := "Get your own".
Definition APOD_URL : string := "https://api.nasa.gov/planetary/apod".

(** [get_apod_info(apod_date)]: the dictionary of the record on status 200,
    [None] otherwise. *)
Definition get_apod_info (env : Env) (apod_date : date) : option (gmap string string) :=
  let resp_msg := requests_get env APOD_URL NASA_API_KEY apod_date true in
  if (status_code resp_msg =? 200)%Z then Some (json resp_msg) else None.

(** [get_apod_image_url(apod_info_dict)]; [Return None] is Python's [None],
    returned when neither branch of the [if] is taken. *)
Definition get_apod_image_url (apod_info_dict : gmap string string) : outcome (option string) :=
  match getitem apod_info_dict "media_type" with
  | Raise e => Raise e
  | Return media_type =>
      if String.eqb media_type "image" then
        match getitem apod_info_dict "hdurl" with
        | Return u => Return (Some u)
        | Raise e => Raise e
        end
      else if String.eqb media_type "video" then
        match getitem apod_info_dict "thumbnail_url" with
        | Return u => Return (Some u)
        | Raise e => Raise e
        end
      else Return None
  end.

End ApodApi.

(* ===================================================================== *)
(** * Vocabulary of the statements *)
(* ===================================================================== *)

Module StrSpec.


(** [all_chars p s]: every character of [s] satisfies [p]. *)
Fixpoint all_chars (p : ascii -> bool) (s : string) : bool :=
  match s with
  | EmptyString => true
  | String a s' => p a && all_chars p s'
  end.

(** ASCII text: every character has a code below 128. *)
Definition is_ascii (c : ascii) : bool := (nat_of_ascii c <? 128)%nat.

Definition ascii_text (s : string) : Prop := all_chars is_ascii s = true.

(** The first and the last character of a string, if any. *)
Definition first_char (s : string) : option ascii :=
  match s with
  | EmptyString => None
  | String a _ => Some a
  end.

Fixpoint last_char (s : string) : option ascii :=
  match s with
  | EmptyString => None
  | String a s' =>
      match last_char s' with
      | Some b => Some b
      | None => Some a
      end
  end.

(** [no_space o]: the character [o], if there is one, is no whitespace. *)
Definition no_space (o : option ascii) : Prop :=
  match o with
  | Some a => PyStr.isspace a = false
  | None => True
  end.

(** The substring after the last occurrence of [c], if [c] occurs. *)
Fixpoint after_last (c : ascii) (s : string) : option string :=
  match s with
  | EmptyString => None
  | String a s' =>
      match after_last c s' with
      | Some r => Some r
      | None => if Ascii.eqb a c then Some s' else None
      end
  end.

(** The substring after the last ['.'] of the whole string; the whole
    string when it has no ['.']. *)
Definition url_extension (url : string) : string :=
  match after_last "." url with
  | Some e => e
  | None => url
  end.

(** Each space becomes one underscore. *)
Fixpoint underscore_spaces (s : string) : string :=
  match s with
  | EmptyString => EmptyString
  | String a s' =>
      String (if Ascii.eqb a " " then "_"%char else a) (underscore_spaces s')
  end.

(** The characters of [s] that are a letter, a digit or an underscore. *)
Fixpoint keep_word (s : string) : string :=
  match s with
  | EmptyString => EmptyString
  | String a s' =>
      if PyStr.is_word a then String a (keep_word s') else keep_word s'
  end.

(** Two strings that differ at most in the case of their ASCII letters. *)
Fixpoint case_variant (s t : string) : bool :=
  match s, t with
  | EmptyString, EmptyString => true
  | String a s', String b t' =>
      Ascii.eqb (PyStr.upper_char a) (PyStr.upper_char b) && case_variant s' t'
  | _, _ => false
  end.

(** An upper-case hexadecimal digit. *)
Definition is_upper_hex (c : ascii) : bool :=
  let n := nat_of_ascii c in
  PyStr.isdigit c || ((65 <=? n)%nat && (n <=? 70)%nat).

(** A lower-case hexadecimal digit. *)
Definition is_lower_hex (c : ascii) : bool :=
  let n := nat_of_ascii c in
  PyStr.isdigit c || ((97 <=? n)%nat && (n <=? 102)%nat).







End StrSpec.

(* ===================================================================== *)
(** * The command line and the clock *)
(* ===================================================================== *)

(** What [get_apod_date] reads from outside: [sys.argv], [date.today()]
    and the parser [date.fromisoformat], whose [ValueError] is [None]. *)
Record Host : Type := MkHost {
  sys_argv : list string;
  date_today : date;
  date_fromisoformat : string -> option date }.

(** [a < b] on dates: by year, then month, then day. *)
Definition date_ltb (a b : date) : bool :=
  (year a <? year b)
  || ((year a =? year b)
      && ((month a <? month b)
          || ((month a =? month b) && (day a <? day b)))).

(** How the start of the script ends: with a value, with [sys.exit(message)],
    or with a [ValueError] nothing catches. *)
Inductive started (A : Type) : Type :=
| Started (a : A)
| SystemExit (message : string)
| ValueError.
Arguments Started {A} a.
Arguments SystemExit {A} message.
Arguments ValueError {A}.

(** [date.fromisoformat] on the format [YYYY-MM-DD] of the usage text, with
    the calendar checks of [datetime.date]; every other string is refused
    (Python from 3.11 on accepts further ISO 8601 forms).  It serves as the
    parser of the concrete hosts below; the statements about
    [get_apod_date] hold for any parser. *)
Fixpoint number (acc : Z) (l : list ascii) : option Z :=
  match l with
  | [] => Some acc
  | c :: l' =>
      if PyStr.isdigit c
      then number (acc * 10 + (Z.of_nat (nat_of_ascii c) - 48)) l'
      else None
  end.

Definition is_leap (y : Z) : bool :=
  ((y mod 4 =? 0) && negb (y mod 100 =? 0)) || (y mod 400 =? 0).

Definition days_in_month (y m : Z) : Z :=
  if m =? 2 then (if is_leap y then 29 else 28)
  else if (m =? 4) || (m =? 6) || (m =? 9) || (m =? 11) then 30
  else 31.

Definition fromisoformat_ymd (s : string) : option date :=
  match s with
  | String y1 (String y2 (String y3 (String y4 (String s1
      (String m1 (String m2 (String s2 (String d1 (String d2 EmptyString))))))))) =>
      if Ascii.eqb s1 "-" && Ascii.eqb s2 "-" then
        match number 0 [y1; y2; y3; y4], number 0 [m1; m2], number 0 [d1; d2] with
        | Some y, Some m, Some d =>
            if (1 <=? y) && (1 <=? m) && (m <=? 12) && (1 <=? d)
               && (d <=? days_in_month y m)
            then Some (Date y m d) else None
        | _, _, _ => None
        end
      else None
  | _ => None
  end.

(* ===================================================================== *)
(** * Concrete records, environments and worlds *)
(* ===================================================================== *)

Definition bytes_of_string (s : string) : list byte := list_byte_of_string s.

(** An image record whose [url] and [hdurl] differ. *)
Definition image_record : gmap string string :=
  <["title" := "Test Image"]> (<["explanation" := "An example."]>
  (<["media_type" := "image"]> (<["url" := "http://x/small.jpg"]>
  {["hdurl" := "http://x/test.png"]}))).

(** A video record without a thumbnail. *)
Definition video_record : gmap string string :=
  <["title" := "A Video"]> (<["explanation" := "Moving."]>
  (<["media_type" := "video"]> {["url" := "http://x/embed/v"]})).

(** A video record with a thumbnail. *)
Definition video_record_thumb : gmap string string :=
  <["thumbnail_url" := "http://x/thumb.jpg"]> video_record.

(** A record of a media type that is neither image nor video. *)
Definition other_record : gmap string string :=
  <["title" := "A Sound"]> (<["media_type" := "audio"]>
  {["url" := "http://x/sound.mp3"]}).

(** Everything works: the API answers 200 with [image_record], the download
    gives the bytes of "abc", the file is saved and the row inserted. *)
Definition env_ok : Env :=
  MkEnv (fun _ _ _ _ => Response 200 image_record)
        (fun _ => Some (bytes_of_string "abc"))
        (fun _ _ => true) false.

(** The same bytes under another title and URL. *)
Definition env_other_title : Env :=
  MkEnv (fun _ _ _ _ => Response 200
           (<["title" := "Same Picture"]> (<["url" := "http://y/again.png"]> image_record)))
        (fun _ => Some (bytes_of_string "abc"))
        (fun _ _ => true) false.

(** The API answers 404. *)
Definition env_no_metadata : Env :=
  MkEnv (fun _ _ _ _ => Response 404 ∅)
        (fun _ => None) (fun _ _ => false) false.

Definition a_date : date := Date 2022 5 9.
Definition another_date : date := Date 2022 5 10.
Definition home : string := "/home/apod".

(** The world after [init_apod_cache] on a fresh host. *)
Definition empty_cache : world := World (Some []) [] [] None.

(** The download fails. *)
Definition env_download_fails : Env :=
  MkEnv (fun _ _ _ _ => Response 200 image_record)
        (fun _ => None) (fun _ _ => true) false.

(** The file cannot be written. *)
Definition env_save_fails : Env :=
  MkEnv (fun _ _ _ _ => Response 200 image_record)
        (fun _ => Some (bytes_of_string "abc"))
        (fun _ _ => false) false.

(** The INSERT fails. *)
Definition env_insert_fails : Env :=
  MkEnv (fun _ _ _ _ => Response 200 image_record)
        (fun _ => Some (bytes_of_string "abc"))
        (fun _ _ => true) true.

(** The record lacks its explanation, its title, its URL. *)
Definition env_no_explanation : Env :=
  MkEnv (fun _ _ _ _ => Response 200 (delete "explanation" image_record))
        (fun _ => Some (bytes_of_string "abc"))
        (fun _ _ => true) false.

Definition env_no_title : Env :=
  MkEnv (fun _ _ _ _ => Response 200 (delete "title" image_record))
        (fun _ => Some (bytes_of_string "abc"))
        (fun _ _ => true) false.

Definition env_no_url : Env :=
  MkEnv (fun _ _ _ _ => Response 200 (delete "url" image_record))
        (fun _ => Some (bytes_of_string "abc"))
        (fun _ _ => true) false.

(** Another picture under the same title and a URL with the same
    extension. *)
Definition env_same_title : Env :=
  MkEnv (fun _ _ _ _ => Response 200 (<["url" := "http://y/other.jpg"]> image_record))
        (fun _ => Some (bytes_of_string "abd"))
        (fun _ _ => true) false.

(** Hosts: the script started on 2022-05-10 with a date, with no argument,
    with a date before the first APOD, with a date in the future and with a
    string that is no date. *)
Definition host_of (args : list string) : Host :=
  MkHost ("apod_desktop.py" :: args) (Date 2022 5 10) fromisoformat_ymd.

(* ===================================================================== *)
(** * [apod_desktop.py] *)
(* ===================================================================== *)

Section ApodDesktop.

(** [script_dir] is the directory of the running script and [os_path_join]
    the two-argument [os.path.join] of the host. *)
Variable script_dir : string.
Variable os_path_join : string -> string -> string.

Definition image_cache_dir : string := os_path_join script_dir "images".
Definition image_cache_db : string := os_path_join image_cache_dir "image_cache.db".

(** [init_apod_cache()]: CREATE TABLE IF NOT EXISTS. *)
Definition init_apod_cache : M unit :=
  fun w =>
    match image_data w with
    | Some _ => (Return tt, w)
    | None => (Return tt, World (Some []) (download_calls w) (save_calls w) (background w))
    end.

(** The largest rowid in use, if any. *)
Fixpoint max_rowid (rows : list row) : option Z :=
  match rows with
  | [] => None
  | r :: rows' =>
      match max_rowid rows' with
      | None => Some (row_id r)
      | Some m => Some (Z.max (row_id r) m)
      end
  end.

(** The rowid SQLite gives to a row inserted without one into an
    [INTEGER PRIMARY KEY] table: 1 in an empty table, else one more than the
    largest in use.  (The random choice SQLite makes once the largest rowid
    is 2^63 - 1 is not modelled.) *)
Definition next_rowid (rows : list row) : Z :=
  match max_rowid rows with
  | None => 1
  | Some m => m + 1
  end.

(** [add_apod_to_db(title, explanation, file_path, sha256)]: every
    exception of the [try] block ends in [return 0].  The new row has the
    largest rowid, so it is the last of the table in rowid order. *)
Definition add_apod_to_db (env : Env) (title explanation file_path sha256 : string) : M Z :=
  fun w =>
    match image_data w with
    | None => (Return 0, w)
    | Some rows =>
        if sqlite_insert_fails env then (Return 0, w)
        else
          let lastrowid := next_rowid rows in
          let image_data' := rows ++ [Row lastrowid title explanation file_path (PyStr.upper sha256)] in
          (Return lastrowid,
           World (Some image_data') (download_calls w) (save_calls w) (background w))
    end.

(** [get_apod_id_from_db(image_sha256)]: [fetchone] gives the first row of
    the scan whose hash is the upper-cased argument. *)
Definition get_apod_id_from_db (image_sha256 : string) : M Z :=
  fun w =>
    match image_data w with
    | None => (Raise OperationalError, w)
    | Some rows =>
        match List.find (fun r => String.eqb (row_sha256 r) (PyStr.upper image_sha256)) rows with
        | Some r => (Return (row_id r), w)
        | None => (Return 0, w)
        end
    end.

(** [determine_apod_file_path(image_title, image_url)] *)
Definition determine_apod_file_path (image_title image_url : string) : string :=
  let file_ext := PyStr.last_item (PyStr.split "." image_url) in
  let file_name := PyStr.strip image_title in
  let file_name := PyStr.replace " " "_" file_name in
  let file_name := PyStr.re_sub_W "" file_name in
  let file_name := PyStr.join "." [file_name; file_ext] in
  os_path_join image_cache_dir file_name.

(** [get_apod_info(image_id)]: [fetchone] gives [None] when no row has the
    id, and [query_result[0]] then raises [TypeError]. *)
Definition get_apod_info (image_id : Z) : M (gmap string string) :=
  fun w =>
    match image_data w with
    | None => (Raise OperationalError, w)
    | Some rows =>
        match List.find (fun r => (row_id r =? image_id)%Z) rows with
        | None => (Raise TypeError, w)
        | Some r =>
            (Return (<["title" := row_title r]>
                    (<["explanation" := row_explanation r]>
                    {["file_path" := row_file_path r]})), w)
        end
    end.

(** [get_all_apod_titles()] *)
Definition get_all_apod_titles : M (list string) :=
  fun w =>
    match image_data w with
    | None => (Raise OperationalError, w)
    | Some rows => (Return (List.map row_title rows), w)
    end.

(** [image_lib.download_image(url)], with the call recorded. *)
Definition download_image (env : Env) (url : string) : M (option (list byte)) :=
  fun w =>
    (Return (image_lib_download_image env url),
     World (image_data w) (download_calls w ++ [url]) (save_calls w) (background w)).

(** [image_lib.save_image_file(data, path)], with the call recorded. *)
Definition save_image_file (env : Env) (data : list byte) (path : string) : M bool :=
  fun w =>
    let ok := image_lib_save_image_file env data path in
    (Return ok,
     World (image_data w) (download_calls w) (save_calls w ++ [SaveCall path data ok]) (background w)).

(** [image_lib.set_desktop_background_image(path)] *)
Definition set_desktop_background_image (path : string) : M unit :=
  fun w => (Return tt, World (image_data w) (download_calls w) (save_calls w) (Some path)).

(** [add_apod_to_cache(apod_date)] *)
Definition add_apod_to_cache (env : Env) (apod_date : date) : M Z :=
  match ApodApi.get_apod_info env apod_date with
  | None => ret 0
  | Some apod_info =>
      apod_title <- getitemM apod_info "title" ;;
      apod_url <- getitemM apod_info "url" ;;
      apod_image_data <- download_image env apod_url ;;
      match apod_image_data with
      | None => ret 0
      | Some data =>
          let apod_sha256 := Sha256.hexdigest data in
          apod_id <- get_apod_id_from_db apod_sha256 ;;
          if negb (apod_id =? 0)%Z then ret apod_id
          else
            let apod_path := determine_apod_file_path apod_title apod_url in
            saved <- save_image_file env data apod_path ;;
            if negb saved then ret 0
            else
              apod_explanation <- getitemM apod_info "explanation" ;;
              add_apod_to_db env apod_title apod_explanation apod_path apod_sha256
      end
  end.

(** [main()], from the date [get_apod_date()] returned. *)
Definition main (env : Env) (apod_date : date) : M unit :=
  _ <- init_apod_cache ;;
  apod_id <- add_apod_to_cache env apod_date ;;
  apod_info <- get_apod_info apod_id ;;
  file_path <- getitemM apod_info "file_path" ;;
  set_desktop_background_image file_path.

(** ** Vocabulary of the statements about the cache *)

(** The world before the program ever ran. *)
Definition fresh_world : world := World None [] [] None.

(** The worlds the program can leave behind: any number of runs of
    [init_apod_cache], [add_apod_to_cache] and [main], each in an
    environment and for a date of its own. *)
Inductive reachable : world -> Prop :=
| reach_fresh : reachable fresh_world
| reach_init (w : world) :
    reachable w -> reachable (snd (init_apod_cache w))
| reach_add (env : Env) (d : date) (w : world) :
    reachable w -> reachable (snd (add_apod_to_cache env d w))
| reach_main (env : Env) (d : date) (w : world) :
    reachable w -> reachable (snd (main env d w)).

(** The invariant of the table: every id is at least 1 and no two rows
    share a hash. *)
Definition table_ok (rows : list row) : Prop :=
  Forall (fun r => 1 <= row_id r) rows /\ NoDup (List.map row_sha256 rows).

Definition world_ok (w : world) : Prop :=
  match image_data w with
  | None => True
  | Some rows => table_ok rows
  end.

(** The bytes [add_apod_to_cache] gets to hash for a date: the metadata
    request succeeds, the record has a title and a URL, and the download of
    that URL succeeds. *)
Definition pipeline_bytes (env : Env) (apod_date : date) : option (list byte) :=
  match ApodApi.get_apod_info env apod_date with
  | None => None
  | Some apod_info =>
      match apod_info !! "title", apod_info !! "url" with
      | Some _, Some apod_url => image_lib_download_image env apod_url
      | _, _ => None
      end
  end.

(** The last steps of [add_apod_to_cache], taken after a miss in the
    table: save the file, then insert the row. *)
Definition store_new_apod (env : Env) (apod_info : gmap string string)
    (apod_title apod_url : string) (data : list byte) : M Z :=
  let apod_path := determine_apod_file_path apod_title apod_url in
  saved <- save_image_file env data apod_path ;;
  if negb saved then ret 0
  else
    apod_explanation <- getitemM apod_info "explanation" ;;
    add_apod_to_db env apod_title apod_explanation apod_path (Sha256.hexdigest data).

(** One insert: the environment it runs in and the four arguments of
    [add_apod_to_db]. *)
Record insertion : Type := Insertion {
  ins_env : Env;
  ins_title : string;
  ins_explanation : string;
  ins_file_path : string;
  ins_sha256 : string }.

(** A sequence of calls of [add_apod_to_db], oldest first. *)
Fixpoint add_all (l : list insertion) (w : world) : world :=
  match l with
  | [] => w
  | i :: l' =>
      add_all l'
        (snd (add_apod_to_db (ins_env i) (ins_title i) (ins_explanation i)
                (ins_file_path i) (ins_sha256 i) w))
  end.

(** The insertions the storage layer did not refuse. *)
Definition stored (l : list insertion) : list insertion :=
  List.filter (fun i => negb (sqlite_insert_fails (ins_env i))) l.

(** ** The start of the script *)

(** [get_apod_date()].  The parse of the first APOD's date stands outside
    the [try], so a [ValueError] there would not be caught. *)
Definition get_apod_date (host : Host) : started date :=
  let num_params := Z.of_nat (List.length (sys_argv host)) - 1 in
  if 1 <=? num_params then
    match date_fromisoformat host (List.nth 1 (sys_argv host) EmptyString) with
    | None => SystemExit "Script execution aborted"
    | Some apod_date =>
        match date_fromisoformat host "1995-06-16" with
        | None => ValueError
        | Some MIN_APOD_DATE =>
            if date_ltb apod_date MIN_APOD_DATE
            then SystemExit "Script execution aborted"
            else if date_ltb (date_today host) apod_date
            then SystemExit "Script execution aborted"
            else Started apod_date
        end
    end
  else Started (date_today host).

(** The script as it is run: [main()] with its call of [get_apod_date()]. *)
Definition run_script (host : Host) (env : Env) (w : world)
    : started (outcome unit) * world :=
  match get_apod_date host with
  | Started apod_date =>
      (Started (fst (main env apod_date w)), snd (main env apod_date w))
  | SystemExit message => (SystemExit message, w)
  | ValueError => (ValueError, w)
  end.

(** ** Vocabulary of the further statements *)

(** The ids grow along the table. *)
Fixpoint ids_increasing (rows : list row) : Prop :=
  match rows with
  | [] => True
  | r :: rows' =>
      Forall (fun r' => row_id r < row_id r') rows' /\ ids_increasing rows'
  end.

(** Among [calls] there is a successful call of [save_image_file] that wrote
    bytes with the hash of the row [r] to the path of [r]. *)
Definition file_saved (calls : list save_call) (r : row) : Prop :=
  exists c,
    In c calls
    /\ saved_path c = row_file_path r
    /\ saved_ok c = true
    /\ PyStr.upper (Sha256.hexdigest (saved_data c)) = row_sha256 r.

(** The ids grow along the table, and every row has its saved file. *)
Definition cache_consistent (w : world) : Prop :=
  match image_data w with
  | None => True
  | Some rows =>
      ids_increasing rows /\ Forall (file_saved (save_calls w)) rows
  end.

(** The dictionary [get_apod_info] builds from a row. *)
Definition info_of_row (r : row) : gmap string string :=
  <["title" := row_title r]>
    (<["explanation" := row_explanation r]>
       {["file_path" := row_file_path r]}).

(* ===================================================================== *)
(** * Facts about the string functions *)
(* ===================================================================== *)

Lemma append_String (a : ascii) (s t : string) :
  String a s +:+ t = String a (s +:+ t).
Proof. reflexivity. Qed.

Lemma append_empty_l (t : string) : EmptyString +:+ t = t.
Proof. reflexivity. Qed.

Lemma append_empty_r (s : string) : s +:+ EmptyString = s.
Proof.
  induction s as [|a s IH]; [reflexivity|].
  now rewrite append_String, IH.
Qed.

Lemma append_assoc' (s t u : string) : (s +:+ t) +:+ u = s +:+ (t +:+ u).
Proof.
  induction s as [|a s IH]; [reflexivity|].
  now rewrite !append_String, IH.
Qed.

(** Replacing runs of non-word characters by the empty string keeps
    exactly the word characters, whatever the state of the scan. *)
Lemma re_sub_nonword_runs_empty (b : bool) (s : string) :
  PyStr.re_sub_nonword_runs EmptyString b s = StrSpec.keep_word s.
Proof.
  revert b; induction s as [|a s IH]; intros b; cbn.
  - reflexivity.
  - destruct (PyStr.is_word a).
    + now rewrite IH.
    + destruct b; rewrite ?append_empty_l; apply IH.
Qed.

Lemma re_sub_W_empty (s : string) :
  PyStr.re_sub_W EmptyString s = StrSpec.keep_word s.
Proof. apply re_sub_nonword_runs_empty. Qed.

Lemma replace_space_underscore (s : string) :
  PyStr.replace " " "_" s = StrSpec.underscore_spaces s.
Proof.
  induction s as [|a s IH]; cbn.
  - reflexivity.
  - destruct (Ascii.eqb a " "); rewrite ?append_String, ?append_empty_l; now rewrite IH.
Qed.

Lemma join_pair (sep a b : string) :
  PyStr.join sep [a; b] = a +:+ sep +:+ b.
Proof. reflexivity. Qed.



(** A prefix does not change what follows the last occurrence, once there
    is one. *)
Lemma after_last_app (c : ascii) (p s r : string) :
  StrSpec.after_last c s = Some r ->
  StrSpec.after_last c (p +:+ s) = Some r.
Proof.
  intros H. induction p as [|a p IH].
  - exact H.
  - rewrite append_String. cbn. now rewrite IH.
Qed.

(** [split] and [after_last] agree on the last field. *)
Lemma split_after_last (c : ascii) (s : string) :
  match StrSpec.after_last c s with
  | None => PyStr.split c s = [s]
  | Some r => exists h t, PyStr.split c s = h :: t /\ t <> [] /\ List.last t EmptyString = r
  end.
Proof.
  induction s as [|a s IH]; cbn.
  - reflexivity.
  - destruct (StrSpec.after_last c s) as [r|].
    + destruct IH as [h [t [E [Ht Hl]]]]. rewrite E.
      destruct (Ascii.eqb a c).
      * exists EmptyString, (h :: t). split; [reflexivity|]. split; [discriminate|].
        destruct t; [contradiction|exact Hl].
      * exists (String a h), t. now split.
    + rewrite IH. destruct (Ascii.eqb a c).
      * exists EmptyString, [s]. split; [reflexivity|]. split; [discriminate|reflexivity].
      * reflexivity.
Qed.

Lemma last_item_split (c : ascii) (s : string) :
  PyStr.last_item (PyStr.split c s) =
  match StrSpec.after_last c s with Some r => r | None => s end.
Proof.
  unfold PyStr.last_item.
  pose proof (split_after_last c s) as H.
  destruct (StrSpec.after_last c s) as [r|].
  - destruct H as [h [t [-> [Ht Hl]]]]. destruct t; [contradiction|exact Hl].
  - now rewrite H.
Qed.

Lemma file_ext_url_extension (url : string) :
  PyStr.last_item (PyStr.split "." url) = StrSpec.url_extension url.
Proof. apply last_item_split. Qed.


(** [lstrip] removes a prefix of whitespace and leaves no whitespace in
    front. *)
Lemma lstrip_spec (s : string) :
  exists l, s = l +:+ PyStr.lstrip s
            /\ StrSpec.all_chars PyStr.isspace l = true
            /\ StrSpec.no_space (StrSpec.first_char (PyStr.lstrip s)).
Proof.
  induction s as [|a s IH].
  - exists EmptyString. now cbn.
  - cbn. destruct (PyStr.isspace a) eqn:E.
    + destruct IH as [l [H1 [H2 H3]]].
      exists (String a l). rewrite append_String, <- H1. cbn. now rewrite E.
    + exists EmptyString. now cbn.
Qed.

Lemma rstrip_empty (s : string) :
  PyStr.rstrip s = EmptyString -> StrSpec.all_chars PyStr.isspace s = true.
Proof.
  induction s as [|a s IH]; cbn; [reflexivity|].
  destruct (PyStr.rstrip s); [|discriminate].
  destruct (PyStr.isspace a); [|discriminate].
  intros _. now apply IH.
Qed.

(** [rstrip] removes a suffix of whitespace and leaves no whitespace at the
    end. *)
Lemma rstrip_spec (s : string) :
  exists r, s = PyStr.rstrip s +:+ r
            /\ StrSpec.all_chars PyStr.isspace r = true
            /\ StrSpec.no_space (StrSpec.last_char (PyStr.rstrip s)).
Proof.
  induction s as [|a s IH].
  - exists EmptyString. now cbn.
  - cbn. destruct (PyStr.rstrip s) as [|b t] eqn:E.
    + destruct (PyStr.isspace a) eqn:Ea.
      * exists (String a s). rewrite append_empty_l. cbn. rewrite Ea.
        split; [reflexivity|]. split; [now apply rstrip_empty | exact I].
      * destruct IH as [r [H1 [H2 H3]]]. rewrite append_empty_l in H1.
        exists r. rewrite append_String, append_empty_l.
        split; [now rewrite <- H1|]. split; [exact H2|].
        cbn. exact Ea.
    + destruct IH as [r [H1 [H2 H3]]].
      exists r. rewrite append_String, <- H1. split; [reflexivity|].
      split; [exact H2|].
      cbn in H3 |- *. now destruct (StrSpec.last_char t).
Qed.

Lemma rstrip_first_char (s : string) :
  StrSpec.no_space (StrSpec.first_char s) ->
  StrSpec.no_space (StrSpec.first_char (PyStr.rstrip s)).
Proof.
  destruct s as [|a s]; cbn; [trivial|].
  intros H. destruct (PyStr.rstrip s); [rewrite H|]; exact H.
Qed.

(** [strip] removes whitespace at both ends and nothing else. *)
Lemma strip_spec (s : string) :
  exists l r,
    s = l +:+ PyStr.strip s +:+ r
    /\ StrSpec.all_chars PyStr.isspace l = true
    /\ StrSpec.all_chars PyStr.isspace r = true
    /\ StrSpec.no_space (StrSpec.first_char (PyStr.strip s))
    /\ StrSpec.no_space (StrSpec.last_char (PyStr.strip s)).
Proof.
  unfold PyStr.strip.
  destruct (lstrip_spec s) as [l [H1 [H2 H3]]].
  destruct (rstrip_spec (PyStr.lstrip s)) as [r [H4 [H5 H6]]].
  exists l, r. rewrite <- H4, <- H1.
  repeat split; try assumption. now apply rstrip_first_char.
Qed.

(* ===================================================================== *)
(** * Facts about the hash string *)
(* ===================================================================== *)

Lemma hex_digit_lower (n : Z) : StrSpec.is_lower_hex (Sha256.hex_digit n) = true.
Proof.
  unfold Sha256.hex_digit. generalize (Z.to_nat (n mod 16)). intros k.
  do 17 (destruct k as [|k]; [reflexivity|]). reflexivity.
Qed.

Lemma hex8_lower (w : Z) (rest : string) :
  StrSpec.all_chars StrSpec.is_lower_hex rest = true ->
  StrSpec.all_chars StrSpec.is_lower_hex (Sha256.hex8 w rest) = true.
Proof.
  intros H. unfold Sha256.hex8. cbn [StrSpec.all_chars].
  now rewrite !hex_digit_lower, H.
Qed.

Lemma hex8_length (w : Z) (rest : string) :
  String.length (Sha256.hex8 w rest) = (8 + String.length rest)%nat.
Proof. reflexivity. Qed.

(** [hexdigest] is a string of 64 lower-case hexadecimal digits. *)
Lemma hexdigest_lower_hex (msg : list byte) :
  StrSpec.all_chars StrSpec.is_lower_hex (Sha256.hexdigest msg) = true
  /\ String.length (Sha256.hexdigest msg) = 64%nat.
Proof.
  unfold Sha256.hexdigest. split.
  - repeat apply hex8_lower. reflexivity.
  - now rewrite !hex8_length.
Qed.

Lemma upper_char_lower_hex (c : ascii) :
  StrSpec.is_lower_hex c = true -> StrSpec.is_upper_hex (PyStr.upper_char c) = true.
Proof.
  destruct c as [[] [] [] [] [] [] [] []]; vm_compute; congruence.
Qed.

Lemma upper_lower_hex (s : string) :
  StrSpec.all_chars StrSpec.is_lower_hex s = true ->
  StrSpec.all_chars StrSpec.is_upper_hex (PyStr.upper s) = true.
Proof.
  induction s as [|a s IH]; cbn; [trivial|].
  intros H. apply andb_true_iff in H as [Ha Hs].
  now rewrite (upper_char_lower_hex a Ha), (IH Hs).
Qed.

Lemma upper_length (s : string) : String.length (PyStr.upper s) = String.length s.
Proof. induction s as [|a s IH]; cbn; [reflexivity | now rewrite IH]. Qed.

Lemma upper_char_idem (c : ascii) :
  PyStr.upper_char (PyStr.upper_char c) = PyStr.upper_char c.
Proof. destruct c as [[] [] [] [] [] [] [] []]; reflexivity. Qed.

(** [upper] changes nothing in a string it produced. *)
Lemma upper_idem (s : string) : PyStr.upper (PyStr.upper s) = PyStr.upper s.
Proof.
  induction s as [|a s IH]; cbn; [reflexivity|].
  now rewrite upper_char_idem, IH.
Qed.

(** Case variants have the same upper-case form, and conversely. *)
Lemma case_variant_upper (s t : string) :
  StrSpec.case_variant s t = true <-> PyStr.upper s = PyStr.upper t.
Proof.
  revert t; induction s as [|a s IH]; intros [|b t]; cbn;
    try (split; [discriminate | discriminate]); [tauto|].
  rewrite andb_true_iff, IH. split.
  - intros [H ->]. apply Ascii.eqb_eq in H. now rewrite H.
  - intros [= H ->]. split; [now apply Ascii.eqb_eq | reflexivity].
Qed.

Lemma case_variant_refl (s : string) : StrSpec.case_variant s s = true.
Proof. now apply case_variant_upper. Qed.

Lemma case_variant_upper_self (s : string) :
  StrSpec.case_variant (PyStr.upper s) s = true.
Proof. apply case_variant_upper, upper_idem. Qed.

(* ===================================================================== *)
(** * The file name of a cached image *)
(* ===================================================================== *)



(** C8.  For the title [" NGC #3521: Galaxy in a Bubble "] and any URL that
    ends in ["NGC3521LRGBHaAPOD-20.jpg"], the path is the cache directory
    joined with ["NGC_3521_Galaxy_in_a_Bubble.jpg"]. *)
Theorem determine_apod_file_path_ngc3521 (prefix : string) :
  determine_apod_file_path " NGC #3521: Galaxy in a Bubble "
    (prefix +:+ "NGC3521LRGBHaAPOD-20.jpg")
  = os_path_join image_cache_dir "NGC_3521_Galaxy_in_a_Bubble.jpg".
Proof.
  unfold determine_apod_file_path.
  rewrite file_ext_url_extension. unfold StrSpec.url_extension.
  rewrite (after_last_app "." prefix "NGC3521LRGBHaAPOD-20.jpg" "jpg") by reflexivity.
  reflexivity.
Qed.

(* ===================================================================== *)
(** * The image URL of a record *)
(* ===================================================================== *)

(** C5 (amended).  [get_apod_image_url] returns [hdurl] for the media type
    "image" and [thumbnail_url] for "video"; a video record without a
    thumbnail makes it raise [KeyError], so no URL is returned; for every
    other media type it raises nothing and returns [None]. *)
Theorem get_apod_image_url_cases (apod_info_dict : gmap string string) :
  (apod_info_dict !! "media_type" = Some "image" ->
     forall u, apod_info_dict !! "hdurl" = Some u ->
     ApodApi.get_apod_image_url apod_info_dict = Return (Some u))
  /\ (apod_info_dict !! "media_type" = Some "video" ->
     forall u, apod_info_dict !! "thumbnail_url" = Some u ->
     ApodApi.get_apod_image_url apod_info_dict = Return (Some u))
  /\ (apod_info_dict !! "media_type" = Some "video" ->
     apod_info_dict !! "thumbnail_url" = None ->
     ApodApi.get_apod_image_url apod_info_dict = Raise (KeyError "thumbnail_url"))
  /\ (forall m, apod_info_dict !! "media_type" = Some m ->
     m <> "image" -> m <> "video" ->
     ApodApi.get_apod_image_url apod_info_dict = Return None).
Proof.
  unfold ApodApi.get_apod_image_url, getitem.
  repeat split.
  - intros -> u ->. reflexivity.
  - intros -> u ->. reflexivity.
  - intros -> ->. reflexivity.
  - intros m -> Hi Hv.
    destruct (String.eqb_spec m "image") as [|_]; [contradiction|].
    destruct (String.eqb_spec m "video") as [|_]; [contradiction|].
    reflexivity.
Qed.

(* ===================================================================== *)
(** * The table and its invariant *)
(* ===================================================================== *)

Lemma max_rowid_bound (rows : list row) (m : Z) :
  max_rowid rows = Some m -> forall r, In r rows -> row_id r <= m.
Proof.
  revert m; induction rows as [|r0 rows IH]; intros m; cbn; [discriminate|].
  destruct (max_rowid rows) as [m'|] eqn:E.
  - intros [= <-] r [<-|Hr]; [lia|].
    specialize (IH m' eq_refl r Hr). lia.
  - intros [= <-] r [<-|Hr]; [lia|].
    destruct rows as [|r1 rows]; [contradiction|].
    cbn in E. destruct (max_rowid rows); discriminate.
Qed.

(** The id of a new row is larger than every id in use. *)
Lemma next_rowid_gt (rows : list row) (r : row) :
  In r rows -> row_id r < next_rowid rows.
Proof.
  intros Hr. unfold next_rowid.
  destruct (max_rowid rows) as [m|] eqn:E.
  - pose proof (max_rowid_bound rows m E r Hr). lia.
  - destruct rows as [|r1 rows]; [contradiction|].
    cbn in E. destruct (max_rowid rows); discriminate.
Qed.

(** The id of a new row is at least 1 when the ids in use are. *)
Lemma next_rowid_pos (rows : list row) :
  Forall (fun r => 1 <= row_id r) rows -> 1 <= next_rowid rows.
Proof.
  intros H. destruct rows as [|r rows].
  - cbn. lia.
  - pose proof (next_rowid_gt (r :: rows) r (or_introl eq_refl)).
    apply List.Forall_inv in H. lia.
Qed.

Lemma find_sha_None (h : string) (rows : list row) :
  List.find (fun r => String.eqb (row_sha256 r) h) rows = None ->
  ~ In h (List.map row_sha256 rows).
Proof.
  intros H Hin. apply List.in_map_iff in Hin as [r [Hr Hin]].
  pose proof (List.find_none _ _ H r Hin) as Hf. cbn in Hf.
  rewrite Hr, String.eqb_refl in Hf. discriminate.
Qed.

Lemma find_sha_Some (h : string) (rows : list row) (r : row) :
  List.find (fun r => String.eqb (row_sha256 r) h) rows = Some r ->
  In r rows /\ row_sha256 r = h.
Proof.
  intros H. apply List.find_some in H as [Hin Hr].
  split; [exact Hin | now apply String.eqb_eq].
Qed.

(** With distinct hashes, the scan finds the one row that has the hash. *)
Lemma find_sha_unique (h : string) (rows : list row) (r : row) :
  NoDup (List.map row_sha256 rows) -> In r rows -> row_sha256 r = h ->
  List.find (fun r => String.eqb (row_sha256 r) h) rows = Some r.
Proof.
  intros Hnd Hin Hr. induction rows as [|r0 rows IH]; [contradiction|].
  cbn in Hnd. apply NoDup_cons in Hnd as [Hfresh Hnd]. cbn.
  destruct Hin as [->|Hin].
  - now rewrite Hr, String.eqb_refl.
  - destruct (String.eqb_spec (row_sha256 r0) h) as [E|_].
    + exfalso. apply Hfresh. rewrite E, <- Hr.
      apply list_elem_of_In. now apply List.in_map.
    + now apply IH.
Qed.

Lemma find_id_None (i : Z) (rows : list row) :
  (forall r, In r rows -> row_id r <> i) ->
  List.find (fun r => row_id r =? i) rows = None.
Proof.
  intros H. induction rows as [|r0 rows IH]; [reflexivity|]. cbn.
  destruct (Z.eqb_spec (row_id r0) i) as [E|_].
  - exfalso. now apply (H r0 (or_introl eq_refl)).
  - apply IH. intros r Hr. apply H. now right.
Qed.

(** A row with a fresh hash and an id of at least 1 keeps the invariant. *)
Lemma table_ok_snoc (rows : list row) (r : row) :
  table_ok rows -> 1 <= row_id r -> ~ In (row_sha256 r) (List.map row_sha256 rows) ->
  table_ok (rows ++ [r]).
Proof.
  intros [Hid Hnd] Hr Hfresh. split.
  - apply List.Forall_app. split; [exact Hid|]. now constructor.
  - rewrite List.map_app. cbn. apply NoDup_app. split; [exact Hnd|].
    split; [|apply NoDup_singleton].
    intros x Hx Hx'. apply list_elem_of_singleton in Hx'. subst x.
    apply Hfresh. now apply list_elem_of_In.
Qed.

Lemma table_ok_nil : table_ok [].
Proof. split; constructor. Qed.

(* ===================================================================== *)
(** * One run of [add_apod_to_cache] *)
(* ===================================================================== *)

Lemma pipeline_bytes_inv (env : Env) (d : date) (B : list byte) :
  pipeline_bytes env d = Some B ->
  exists info t url,
    ApodApi.get_apod_info env d = Some info
    /\ info !! "title" = Some t /\ info !! "url" = Some url
    /\ image_lib_download_image env url = Some B.
Proof.
  unfold pipeline_bytes.
  destruct (ApodApi.get_apod_info env d) as [info|]; [|discriminate].
  destruct (info !! "title") as [t|] eqn:Et; [|discriminate].
  destruct (info !! "url") as [url|] eqn:Eu; [|discriminate].
  intros H. now exists info, t, url.
Qed.

(** Without bytes to hash, a run ends with 0 or a [KeyError], and touches
    neither the table nor the files. *)
Lemma add_apod_to_cache_no_bytes (env : Env) (d : date) (w : world) :
  pipeline_bytes env d = None ->
  (fst (add_apod_to_cache env d w) = Return 0
   \/ exists k, fst (add_apod_to_cache env d w) = Raise (KeyError k))
  /\ image_data (snd (add_apod_to_cache env d w)) = image_data w
  /\ save_calls (snd (add_apod_to_cache env d w)) = save_calls w.
Proof.
  unfold pipeline_bytes, add_apod_to_cache.
  destruct (ApodApi.get_apod_info env d) as [info|]; [|intros _; cbn; tauto].
  unfold bind, getitemM, getitem, download_image, ret.
  destruct (info !! "title") as [t|]; [|intros _; cbn; eauto].
  destruct (info !! "url") as [url|]; [|intros _; cbn; eauto].
  intros ->. cbn. tauto.
Qed.

(** With bytes to hash and a table, a run looks the hash up and either
    returns the id found or goes on to store the image. *)
Lemma add_apod_to_cache_run (env : Env) (d : date) (w : world)
    (info : gmap string string) (t url : string) (B : list byte) (rows : list row) :
  ApodApi.get_apod_info env d = Some info ->
  info !! "title" = Some t -> info !! "url" = Some url ->
  image_lib_download_image env url = Some B ->
  image_data w = Some rows ->
  add_apod_to_cache env d w =
    let wd := World (Some rows) (download_calls w ++ [url]) (save_calls w) (background w) in
    match List.find (fun r => String.eqb (row_sha256 r) (PyStr.upper (Sha256.hexdigest B))) rows with
    | Some r =>
        if row_id r =? 0 then store_new_apod env info t url B wd
        else (Return (row_id r), wd)
    | None => store_new_apod env info t url B wd
    end.
Proof.
  intros Hinfo Ht Hu HB Hrows.
  unfold add_apod_to_cache, store_new_apod.
  rewrite Hinfo. unfold bind at 1 2 3, getitemM at 1 2, getitem, download_image.
  rewrite Ht, Hu, HB, Hrows.
  unfold bind at 1, get_apod_id_from_db. cbn [image_data].
  destruct (List.find _ rows) as [r|]; [|reflexivity].
  destruct (row_id r =? 0); reflexivity.
Qed.

(** Without a table the lookup raises, and nothing is stored. *)
Lemma add_apod_to_cache_no_table (env : Env) (d : date) (w : world) :
  image_data w = None ->
  image_data (snd (add_apod_to_cache env d w)) = None
  /\ save_calls (snd (add_apod_to_cache env d w)) = save_calls w
  /\ (forall i, fst (add_apod_to_cache env d w) = Return i -> i = 0).
Proof.
  intros Hw. unfold add_apod_to_cache.
  destruct (ApodApi.get_apod_info env d) as [info|].
  2: { cbn. repeat split; try assumption. now intros i [= <-]. }
  unfold bind, getitemM, getitem, download_image, ret, get_apod_id_from_db.
  destruct (info !! "title") as [t|].
  2: { cbn. repeat split; try assumption. discriminate. }
  destruct (info !! "url") as [url|].
  2: { cbn. repeat split; try assumption. discriminate. }
  destruct (image_lib_download_image env url) as [B|]; cbn; rewrite ?Hw; cbn.
  - repeat split; try assumption. discriminate.
  - repeat split; try assumption. now intros i [= <-].
Qed.

(** The outcomes of storing a new image. *)
Lemma store_new_apod_cases (env : Env) (info : gmap string string)
    (t url : string) (B : list byte) (w : world) (rows : list row) :
  image_data w = Some rows ->
  (exists e,
      fst (store_new_apod env info t url B w) = Return (next_rowid rows)
      /\ image_data (snd (store_new_apod env info t url B w)) =
           Some (rows ++ [Row (next_rowid rows) t e (determine_apod_file_path t url)
                              (PyStr.upper (Sha256.hexdigest B))]))
  \/ ((fst (store_new_apod env info t url B w) = Return 0
       \/ exists k, fst (store_new_apod env info t url B w) = Raise (KeyError k))
      /\ image_data (snd (store_new_apod env info t url B w)) = Some rows).
Proof.
  intros Hw. unfold store_new_apod, bind, save_image_file, ret, getitemM, getitem, add_apod_to_db.
  destruct (image_lib_save_image_file env B _); cbn [negb]; [|cbn; tauto].
  destruct (info !! "explanation") as [e|]; [|cbn; eauto].
  cbn [image_data]. rewrite Hw.
  destruct (sqlite_insert_fails env); [cbn; tauto|].
  left. exists e. cbn. tauto.
Qed.

(** What a run does to an existing table: either it leaves the table as it
    is, and an id it returns is the id of a row of the table with the hash
    of the downloaded bytes, no file being saved; or it appends one row, with
    a new id and a hash no other row has, and returns that id. *)
Lemma add_apod_to_cache_effect (env : Env) (d : date) (w : world) (rows : list row) :
  world_ok w -> image_data w = Some rows ->
  (image_data (snd (add_apod_to_cache env d w)) = Some rows
   /\ forall i, fst (add_apod_to_cache env d w) = Return i -> i <> 0 ->
      save_calls (snd (add_apod_to_cache env d w)) = save_calls w
      /\ exists r, In r rows /\ row_id r = i
           /\ forall B, pipeline_bytes env d = Some B ->
                row_sha256 r = PyStr.upper (Sha256.hexdigest B))
  \/
  (exists new,
     image_data (snd (add_apod_to_cache env d w)) = Some (rows ++ [new])
     /\ fst (add_apod_to_cache env d w) = Return (row_id new)
     /\ row_id new = next_rowid rows
     /\ ~ In (row_sha256 new) (List.map row_sha256 rows)
     /\ forall B, pipeline_bytes env d = Some B ->
          row_sha256 new = PyStr.upper (Sha256.hexdigest B)).
Proof.
  intros Hok Hw. unfold world_ok in Hok. rewrite Hw in Hok. destruct Hok as [Hid Hnd].
  destruct (pipeline_bytes env d) as [B|] eqn:Hp.
  - destruct (pipeline_bytes_inv env d B Hp) as [info [t [url [Hinfo [Ht [Hu HB]]]]]].
    rewrite (add_apod_to_cache_run env d w info t url B rows Hinfo Ht Hu HB Hw).
    cbv zeta.
    set (wd := World (Some rows) (download_calls w ++ [url]) (save_calls w) (background w)).
    destruct (List.find _ rows) as [r|] eqn:F.
    + apply find_sha_Some in F as [Hin Hr].
      destruct (Z.eqb_spec (row_id r) 0) as [E|Hne].
      * exfalso. pose proof (proj1 (List.Forall_forall _ _) Hid r Hin) as H1.
        cbn in H1. lia.
      * cbn. left. split; [reflexivity|].
        intros i [= <-] _. split; [reflexivity|]. exists r.
        split; [exact Hin|]. split; [reflexivity|]. now intros B0 [= <-].
    + apply find_sha_None in F.
      destruct (store_new_apod_cases env info t url B wd rows eq_refl)
        as [[e [Hres Htab]] | [Hres Htab]].
      * right. eexists. split; [exact Htab|]. cbn.
        split; [exact Hres|]. split; [reflexivity|]. split; [exact F|].
        now intros B0 [= <-].
      * left. split; [exact Htab|].
        intros i Hi Hne. exfalso. destruct Hres as [Hres|[k Hres]];
          rewrite Hres in Hi; [injection Hi as <-; now apply Hne | discriminate].
  - destruct (add_apod_to_cache_no_bytes env d w Hp) as [Hres [Htab Hsave]].
    rewrite Htab, Hw. left. split; [reflexivity|].
    intros i Hi Hne. exfalso. destruct Hres as [Hres|[k Hres]];
      rewrite Hres in Hi; [injection Hi as <-; now apply Hne | discriminate].
Qed.

(** A run keeps the invariant of the table. *)
Lemma add_apod_to_cache_ok (env : Env) (d : date) (w : world) :
  world_ok w -> world_ok (snd (add_apod_to_cache env d w)).
Proof.
  intros Hok. destruct (image_data w) as [rows|] eqn:Hw.
  - destruct (add_apod_to_cache_effect env d w rows Hok Hw)
      as [[Htab _] | [new [Htab [_ [Hid [Hfresh _]]]]]];
      unfold world_ok in *; rewrite Htab; rewrite Hw in Hok.
    + exact Hok.
    + apply table_ok_snoc; [exact Hok | | exact Hfresh].
      rewrite Hid. apply next_rowid_pos, Hok.
  - destruct (add_apod_to_cache_no_table env d w Hw) as [Htab _].
    unfold world_ok. now rewrite Htab.
Qed.

Lemma init_apod_cache_ok (w : world) :
  world_ok w -> world_ok (snd (init_apod_cache w)).
Proof.
  unfold world_ok, init_apod_cache.
  destruct (image_data w) as [rows|] eqn:Hw; cbn; [now rewrite Hw|].
  intros _. apply table_ok_nil.
Qed.

(** [main] changes the table and the saved files as its call of
    [add_apod_to_cache] on the initialised cache does. *)
Lemma main_world (env : Env) (d : date) (w : world) :
  image_data (snd (main env d w))
  = image_data (snd (add_apod_to_cache env d (snd (init_apod_cache w))))
  /\ save_calls (snd (main env d w))
  = save_calls (snd (add_apod_to_cache env d (snd (init_apod_cache w)))).
Proof.
  unfold main, bind.
  destruct (init_apod_cache w) as [[[]|e] w0] eqn:Ei.
  2: { unfold init_apod_cache in Ei. destruct (image_data w); discriminate. }
  cbn [snd].
  destruct (add_apod_to_cache env d w0) as [[i|e] w1]; [|now cbn].
  cbn [snd]. unfold get_apod_info, getitemM, getitem, set_desktop_background_image.
  destruct (image_data w1) as [rows|] eqn:E1; [|now cbn; rewrite E1].
  destruct (List.find _ rows) as [r|]; [|now cbn; rewrite E1].
  destruct (_ !! "file_path"); now cbn; rewrite ?E1.
Qed.

Lemma main_ok (env : Env) (d : date) (w : world) :
  world_ok w -> world_ok (snd (main env d w)).
Proof.
  intros Hok. unfold world_ok. rewrite (proj1 (main_world env d w)).
  apply add_apod_to_cache_ok, init_apod_cache_ok, Hok.
Qed.

(** Every world the program can leave behind satisfies the invariant. *)
Lemma reachable_ok (w : world) : reachable w -> world_ok w.
Proof.
  induction 1 as [|w _ IH|env d w _ IH|env d w _ IH].
  - exact I.
  - now apply init_apod_cache_ok.
  - now apply add_apod_to_cache_ok.
  - now apply main_ok.
Qed.

(* ===================================================================== *)
(** * Deduplication by content hash *)
(* ===================================================================== *)

(** A run on bytes whose hash a row of the table has returns the id of
    that row; it saves no file and inserts no row. *)
Lemma add_apod_to_cache_hit (env : Env) (d : date) (w : world)
    (B : list byte) (rows : list row) (r : row) :
  world_ok w -> pipeline_bytes env d = Some B ->
  image_data w = Some rows -> In r rows ->
  row_sha256 r = PyStr.upper (Sha256.hexdigest B) ->
  fst (add_apod_to_cache env d w) = Return (row_id r)
  /\ image_data (snd (add_apod_to_cache env d w)) = Some rows
  /\ save_calls (snd (add_apod_to_cache env d w)) = save_calls w.
Proof.
  intros Hok Hp Hw Hin Hr.
  destruct (pipeline_bytes_inv env d B Hp) as [info [t [url [Hinfo [Ht [Hu HB]]]]]].
  rewrite (add_apod_to_cache_run env d w info t url B rows Hinfo Ht Hu HB Hw).
  cbv zeta. unfold world_ok in Hok. rewrite Hw in Hok. destruct Hok as [Hid Hnd].
  rewrite (find_sha_unique _ rows r Hnd Hin Hr).
  pose proof (proj1 (List.Forall_forall _ _) Hid r Hin) as H1. cbn in H1.
  destruct (Z.eqb_spec (row_id r) 0) as [E|_]; [lia|].
  now cbn.
Qed.

(** A run that returns an id other than 0 leaves a table in which the row
    of that id has the upper-cased digest of the bytes as its hash. *)
Lemma add_apod_to_cache_success (env : Env) (d : date) (w : world)
    (B : list byte) (i : Z) :
  world_ok w -> pipeline_bytes env d = Some B ->
  fst (add_apod_to_cache env d w) = Return i -> i <> 0 ->
  exists rows r,
    image_data (snd (add_apod_to_cache env d w)) = Some rows
    /\ In r rows /\ row_id r = i
    /\ row_sha256 r = PyStr.upper (Sha256.hexdigest B).
Proof.
  intros Hok Hp Hres Hne.
  destruct (image_data w) as [rows0|] eqn:Hw.
  - destruct (add_apod_to_cache_effect env d w rows0 Hok Hw)
      as [[Htab Hret] | [new [Htab [Hnew [_ [_ Hsha]]]]]].
    + destruct (Hret i Hres Hne) as [_ [r [Hin [Hi Hsha]]]].
      exists rows0, r. repeat split; auto.
    + exists (rows0 ++ [new]), new. rewrite Hnew in Hres. injection Hres as <-.
      repeat split; auto. apply List.in_or_app. right. now left.
  - destruct (add_apod_to_cache_no_table env d w Hw) as [_ [_ H0]].
    exfalso. apply Hne. now apply H0.
Qed.

(** C1.  In a world the program can reach, a run of [add_apod_to_cache] on
    bytes whose SHA-256 hash a row of the table already has returns the id
    of that row, saves no file and inserts no row; and after a run that
    returned an id, a further run on the same bytes (for whatever date and
    title) returns the same id and leaves table and files as they are. *)
Theorem add_apod_to_cache_dedup (env : Env) (d : date) (w : world) (B : list byte) :
  reachable w -> pipeline_bytes env d = Some B ->
  (forall rows r,
     image_data w = Some rows -> In r rows ->
     row_sha256 r = PyStr.upper (Sha256.hexdigest B) ->
     fst (add_apod_to_cache env d w) = Return (row_id r)
     /\ image_data (snd (add_apod_to_cache env d w)) = image_data w
     /\ save_calls (snd (add_apod_to_cache env d w)) = save_calls w)
  /\
  (forall i,
     fst (add_apod_to_cache env d w) = Return i -> i <> 0 ->
     forall env' d', pipeline_bytes env' d' = Some B ->
     let w1 := snd (add_apod_to_cache env d w) in
     fst (add_apod_to_cache env' d' w1) = Return i
     /\ image_data (snd (add_apod_to_cache env' d' w1)) = image_data w1
     /\ save_calls (snd (add_apod_to_cache env' d' w1)) = save_calls w1).
Proof.
  intros Hreach Hp. pose proof (reachable_ok w Hreach) as Hok. split.
  - intros rows r Hw Hin Hr. rewrite Hw.
    now apply (add_apod_to_cache_hit env d w B rows r).
  - intros i Hres Hne env' d' Hp' w1.
    destruct (add_apod_to_cache_success env d w B i Hok Hp Hres Hne)
      as [rows [r [Htab [Hin [<- Hsha]]]]].
    fold w1 in Htab. rewrite Htab.
    apply (add_apod_to_cache_hit env' d' w1 B rows r); auto.
    now apply add_apod_to_cache_ok.
Qed.

(** The lookup by hash does not change the world. *)
Lemma get_apod_id_from_db_world (h : string) (w : world) :
  snd (get_apod_id_from_db h w) = w.
Proof.
  unfold get_apod_id_from_db.
  destruct (image_data w) as [rows|]; [|reflexivity].
  now destruct (List.find _ rows).
Qed.

(** C7.  After a run of [add_apod_to_cache] that returned an id for the
    bytes [B], the row of that id stores the SHA-256 digest of [B] as 64
    upper-case hexadecimal digits, and [get_apod_id_from_db] returns that id
    for every letter-case variant of the digest. *)
Theorem stored_hash_is_upper_hexdigest (env : Env) (d : date) (w : world)
    (B : list byte) (i : Z) :
  reachable w -> pipeline_bytes env d = Some B ->
  fst (add_apod_to_cache env d w) = Return i -> i <> 0 ->
  let w1 := snd (add_apod_to_cache env d w) in
  exists rows r,
    image_data w1 = Some rows /\ In r rows /\ row_id r = i
    /\ row_sha256 r = PyStr.upper (Sha256.hexdigest B)
    /\ StrSpec.all_chars StrSpec.is_upper_hex (row_sha256 r) = true
    /\ String.length (row_sha256 r) = 64%nat
    /\ forall h, StrSpec.case_variant h (Sha256.hexdigest B) = true ->
         get_apod_id_from_db h w1 = (Return i, w1).
Proof.
  intros Hreach Hp Hres Hne w1.
  pose proof (reachable_ok w Hreach) as Hok.
  destruct (add_apod_to_cache_success env d w B i Hok Hp Hres Hne)
    as [rows [r [Htab [Hin [Hi Hsha]]]]].
  fold w1 in Htab. exists rows, r.
  destruct (hexdigest_lower_hex B) as [Hhex Hlen].
  repeat split; auto.
  - rewrite Hsha. now apply upper_lower_hex.
  - now rewrite Hsha, upper_length.
  - intros h Hh. apply case_variant_upper in Hh.
    assert (world_ok w1) as Hok1 by now apply add_apod_to_cache_ok.
    unfold world_ok in Hok1. rewrite Htab in Hok1. destruct Hok1 as [_ Hnd].
    unfold get_apod_id_from_db. rewrite Htab, Hh.
    rewrite (find_sha_unique _ rows r Hnd Hin Hsha). now rewrite Hi.
Qed.

(* ===================================================================== *)
(** * Ids, the value 0 and the lookup by id *)
(* ===================================================================== *)

(** [add_apod_to_db] either inserts nothing and returns 0, or appends the
    row it was given, under the next id, and returns that id. *)
Lemma add_apod_to_db_cases (env : Env) (t e p h : string) (w : world) :
  (fst (add_apod_to_db env t e p h w) = Return 0
   /\ snd (add_apod_to_db env t e p h w) = w)
  \/ (exists rows,
        image_data w = Some rows
        /\ sqlite_insert_fails env = false
        /\ fst (add_apod_to_db env t e p h w) = Return (next_rowid rows)
        /\ image_data (snd (add_apod_to_db env t e p h w)) =
             Some (rows ++ [Row (next_rowid rows) t e p (PyStr.upper h)])).
Proof.
  unfold add_apod_to_db.
  destruct (image_data w) as [rows|] eqn:Hw; [|now left].
  destruct (sqlite_insert_fails env) eqn:Hf; [now left|].
  right. exists rows. now cbn.
Qed.

(** C10.  In a world the program can reach: every id in the table is at
    least 1, so none is 0; an insert that returns an id other than 0 has
    stored its row under that id, which is at least 1;
    [get_apod_id_from_db] returns 0 exactly when no row has the hash; and an
    id other than 0 returned by [add_apod_to_cache] is the id of a row of the
    table. *)
Theorem zero_is_no_entry_id (w : world) (rows : list row) :
  reachable w -> image_data w = Some rows ->
  (forall r, In r rows -> 1 <= row_id r /\ row_id r <> 0)
  /\ (forall env t e p h i,
        fst (add_apod_to_db env t e p h w) = Return i -> i <> 0 ->
        1 <= i
        /\ image_data (snd (add_apod_to_db env t e p h w)) =
             Some (rows ++ [Row i t e p (PyStr.upper h)]))
  /\ (forall h,
        fst (get_apod_id_from_db h w) = Return 0
        <-> forall r, In r rows -> row_sha256 r <> PyStr.upper h)
  /\ (forall env d i,
        fst (add_apod_to_cache env d w) = Return i -> i <> 0 ->
        exists rows' r,
          image_data (snd (add_apod_to_cache env d w)) = Some rows'
          /\ In r rows' /\ row_id r = i).
Proof.
  intros Hreach Hw. pose proof (reachable_ok w Hreach) as Hok.
  assert (Hid : Forall (fun r => 1 <= row_id r) rows).
  { unfold world_ok in Hok. rewrite Hw in Hok. apply Hok. }
  assert (Hpos : forall r, In r rows -> 1 <= row_id r).
  { intros r Hin. exact (proj1 (List.Forall_forall _ _) Hid r Hin). }
  split; [|split; [|split]].
  - intros r Hin. specialize (Hpos r Hin). lia.
  - intros env t e p h i Hres Hne.
    destruct (add_apod_to_db_cases env t e p h w) as [[H0 _] | [rows0 [Hw0 [_ [Hr Htab]]]]].
    + rewrite H0 in Hres. injection Hres as <-. contradiction.
    + rewrite Hw in Hw0. injection Hw0 as <-.
      rewrite Hr in Hres. injection Hres as <-.
      split; [now apply next_rowid_pos | exact Htab].
  - intros h. unfold get_apod_id_from_db. rewrite Hw.
    destruct (List.find _ rows) as [r|] eqn:F; cbn.
    + apply find_sha_Some in F as [Hin Hr]. split.
      * intros [= E]. specialize (Hpos r Hin). lia.
      * intros H. exfalso. now apply (H r Hin).
    + split; [|reflexivity]. intros _ r Hin Hr.
      apply find_sha_None in F. apply F. rewrite <- Hr. now apply List.in_map.
  - intros env d i Hres Hne.
    destruct (add_apod_to_cache_effect env d w rows Hok Hw)
      as [[Htab Hret] | [new [Htab [Hnew _]]]].
    + destruct (Hret i Hres Hne) as [_ [r [Hin [Hi _]]]].
      now exists rows, r.
    + rewrite Hnew in Hres. injection Hres as <-.
      exists (rows ++ [new]), new. repeat split; auto.
      apply List.in_or_app. right. now left.
Qed.

(** The lookup by id finds nothing when no row has the id, and
    subscripting the missing result raises. *)
Lemma get_apod_info_no_row (image_id : Z) (w : world) (rows : list row) :
  image_data w = Some rows ->
  (forall r, In r rows -> row_id r <> image_id) ->
  get_apod_info image_id w = (Raise TypeError, w).
Proof.
  intros Hw Hnone. unfold get_apod_info. rewrite Hw.
  now rewrite (find_id_None image_id rows Hnone).
Qed.

(** C4 (what the code does).  [get_apod_info] on an id that no row of the
    table has does not return: it raises [TypeError], and leaves the world
    as it is. *)
Theorem get_apod_info_unknown_id (image_id : Z) (w : world) (rows : list row) :
  image_data w = Some rows ->
  (forall r, In r rows -> row_id r <> image_id) ->
  fst (get_apod_info image_id w) = Raise TypeError
  /\ snd (get_apod_info image_id w) = w
  /\ ~ (exists info, fst (get_apod_info image_id w) = Return info).
Proof.
  intros Hw Hnone. rewrite (get_apod_info_no_row image_id w rows Hw Hnone).
  repeat split. intros [info H]. discriminate.
Qed.

(** After [init_apod_cache] the table exists. *)
Lemma init_apod_cache_table (w : world) :
  fst (init_apod_cache w) = Return tt
  /\ exists rows, image_data (snd (init_apod_cache w)) = Some rows.
Proof.
  unfold init_apod_cache. destruct (image_data w) as [rows|] eqn:Hw; cbn.
  - split; [reflexivity|]. now exists rows.
  - split; [reflexivity|]. now exists [].
Qed.

(** C6 (what the code does).  Whenever [add_apod_to_cache] returns 0, the
    value it returns on a failure, [main] goes on to look the id 0 up and
    ends with an uncaught [TypeError]. *)
Theorem main_raises_after_failure (env : Env) (d : date) (w : world) :
  reachable w ->
  fst (add_apod_to_cache env d (snd (init_apod_cache w))) = Return 0 ->
  fst (main env d w) = Raise TypeError.
Proof.
  intros Hreach Hres.
  pose proof (reachable_ok _ (reach_add env d _ (reach_init w Hreach))) as Hok1.
  pose proof (reachable_ok _ (reach_init w Hreach)) as Hok0.
  destruct (init_apod_cache_table w) as [Hinit [rows0 Hw0]].
  unfold main, bind.
  destruct (init_apod_cache w) as [[[]|e0] w0]; [|discriminate].
  cbn [fst snd] in *.
  assert (exists rows1, image_data (snd (add_apod_to_cache env d w0)) = Some rows1)
    as [rows1 Hw1].
  { destruct (add_apod_to_cache_effect env d w0 rows0 Hok0 Hw0)
      as [[Htab _] | [new [Htab _]]]; eauto. }
  destruct (add_apod_to_cache env d w0) as [res w1]. cbn [fst snd] in *. subst res.
  rewrite (get_apod_info_no_row 0 w1 rows1 Hw1); [reflexivity|].
  intros r Hin. unfold world_ok in Hok1. rewrite Hw1 in Hok1. destruct Hok1 as [Hid _].
  pose proof (proj1 (List.Forall_forall _ _) Hid r Hin) as H1. cbn in H1. lia.
Qed.

(* ===================================================================== *)
(** * The titles of the cache *)
(* ===================================================================== *)

Lemma add_apod_to_db_table (env : Env) (t e p h : string) (w : world)
    (rows : list row) :
  image_data w = Some rows ->
  image_data (snd (add_apod_to_db env t e p h w)) =
    Some (if sqlite_insert_fails env then rows
          else rows ++ [Row (next_rowid rows) t e p (PyStr.upper h)]).
Proof.
  intros Hw. unfold add_apod_to_db. rewrite Hw.
  now destruct (sqlite_insert_fails env).
Qed.

(** C9.  After any sequence of calls of [add_apod_to_db] on an existing
    table, [get_all_apod_titles] returns the titles the table had, followed
    by the titles of the rows that were stored, in the order of the
    calls. *)
Theorem get_all_apod_titles_insertion_order (l : list insertion) (w : world)
    (rows : list row) :
  image_data w = Some rows ->
  get_all_apod_titles (add_all l w) =
    (Return (List.map row_title rows ++ List.map ins_title (stored l)), add_all l w).
Proof.
  revert w rows. induction l as [|i l IH]; intros w rows Hw.
  - cbn. unfold get_all_apod_titles. now rewrite Hw, List.app_nil_r.
  - cbn [add_all].
    rewrite (IH _ _ (add_apod_to_db_table (ins_env i) (ins_title i)
                       (ins_explanation i) (ins_file_path i) (ins_sha256 i) w rows Hw)).
    unfold stored. cbn [List.filter].
    destruct (sqlite_insert_fails (ins_env i)); cbn [negb]; [reflexivity|].
    rewrite List.map_app. cbn. now rewrite <- List.app_assoc.
Qed.

(* ===================================================================== *)
(** * The URL the image is downloaded from *)
(* ===================================================================== *)

(** Storing a new image downloads nothing, and the one file it saves goes
    to the path derived from the title and the URL. *)
Lemma store_new_apod_calls (env : Env) (info : gmap string string)
    (t url : string) (B : list byte) (w : world) :
  download_calls (snd (store_new_apod env info t url B w)) = download_calls w
  /\ forall c, In c (save_calls (snd (store_new_apod env info t url B w))) ->
       In c (save_calls w) \/ saved_path c = determine_apod_file_path t url.
Proof.
  assert (Hin : forall c ok,
    In c (save_calls w ++ [SaveCall (determine_apod_file_path t url) B ok]) ->
    In c (save_calls w) \/ saved_path c = determine_apod_file_path t url).
  { intros c ok Hc. apply List.in_app_or in Hc as [Hc|[<-|[]]]; [now left | now right]. }
  unfold store_new_apod, bind, save_image_file, ret, getitemM, getitem, add_apod_to_db.
  destruct (image_lib_save_image_file env B _); cbn [negb]; [|cbn; eauto].
  destruct (info !! "explanation"); [|cbn; eauto].
  cbn [image_data].
  destruct (image_data w); [|cbn; eauto].
  destruct (sqlite_insert_fails env); cbn; eauto.
Qed.

(** C2 (what the code does).  [add_apod_to_cache] downloads the image from
    the field [url] of the record, whatever its media type and its fields
    [hdurl] and [thumbnail_url] are, and every file it saves goes to the path
    derived from the title and that same URL. *)
Theorem add_apod_to_cache_downloads_url (env : Env) (d : date) (w : world)
    (info : gmap string string) (t url : string) :
  ApodApi.get_apod_info env d = Some info ->
  info !! "title" = Some t -> info !! "url" = Some url ->
  download_calls (snd (add_apod_to_cache env d w)) = download_calls w ++ [url]
  /\ forall c, In c (save_calls (snd (add_apod_to_cache env d w))) ->
       In c (save_calls w) \/ saved_path c = determine_apod_file_path t url.
Proof.
  intros Hinfo Ht Hu.
  destruct (image_lib_download_image env url) as [B|] eqn:HB.
  - destruct (image_data w) as [rows|] eqn:Hw.
    + rewrite (add_apod_to_cache_run env d w info t url B rows Hinfo Ht Hu HB Hw).
      cbv zeta.
      set (wd := World (Some rows) (download_calls w ++ [url]) (save_calls w) (background w)).
      pose proof (store_new_apod_calls env info t url B wd) as Hstore.
      destruct (List.find _ rows) as [r|]; [|exact Hstore].
      destruct (row_id r =? 0); [exact Hstore|]. cbn. auto.
    + unfold add_apod_to_cache. rewrite Hinfo.
      unfold bind, getitemM, getitem, download_image, get_apod_id_from_db.
      rewrite Ht, Hu, HB. cbn [image_data]. rewrite Hw. cbn. auto.
  - unfold add_apod_to_cache. rewrite Hinfo.
    unfold bind, getitemM, getitem, download_image, ret.
    rewrite Ht, Hu, HB. cbn. auto.
Qed.

(* ===================================================================== *)
(** * The ways a run of [add_apod_to_cache] ends *)
(* ===================================================================== *)

(** The last steps of a run, written out. *)
Lemma store_new_apod_eq (env : Env) (info : gmap string string)
    (t url : string) (B : list byte) (w : world) :
  store_new_apod env info t url B w =
    let path := determine_apod_file_path t url in
    let ok := image_lib_save_image_file env B path in
    let ws := World (image_data w) (download_calls w)
                (save_calls w ++ [SaveCall path B ok]) (background w) in
    if ok then
      match info !! "explanation" with
      | None => (Raise (KeyError "explanation"), ws)
      | Some e => add_apod_to_db env t e path (Sha256.hexdigest B) ws
      end
    else (Return 0, ws).
Proof.
  unfold store_new_apod, bind, save_image_file, ret, getitemM, getitem. cbv zeta.
  destruct (image_lib_save_image_file env B _); cbn [negb]; [|reflexivity].
  now destruct (info !! "explanation").
Qed.

Lemma find_sha_miss (h : string) (rows : list row) :
  (forall r, In r rows -> row_sha256 r <> h) ->
  List.find (fun r => String.eqb (row_sha256 r) h) rows = None.
Proof.
  intros H. induction rows as [|r0 rows IH]; [reflexivity|]. cbn.
  destruct (String.eqb_spec (row_sha256 r0) h) as [E|_].
  - exfalso. now apply (H r0 (or_introl eq_refl)).
  - apply IH. intros r Hr. apply H. now right.
Qed.

(** On a miss the run goes on to store the image. *)
Lemma add_apod_to_cache_miss (env : Env) (d : date) (w : world)
    (info : gmap string string) (t url : string) (B : list byte) (rows : list row) :
  ApodApi.get_apod_info env d = Some info ->
  info !! "title" = Some t -> info !! "url" = Some url ->
  image_lib_download_image env url = Some B ->
  image_data w = Some rows ->
  (forall r, In r rows -> row_sha256 r <> PyStr.upper (Sha256.hexdigest B)) ->
  add_apod_to_cache env d w =
    store_new_apod env info t url B
      (World (Some rows) (download_calls w ++ [url]) (save_calls w) (background w)).
Proof.
  intros Hinfo Ht Hu HB Hw Hmiss.
  rewrite (add_apod_to_cache_run env d w info t url B rows Hinfo Ht Hu HB Hw).
  cbv zeta. now rewrite (find_sha_miss _ rows Hmiss).
Qed.

(** X1.  When the API answers with a status other than 200, a run returns 0
    and leaves the world as it is: nothing is downloaded, saved or
    inserted. *)
Theorem add_apod_to_cache_no_metadata (env : Env) (d : date) (w : world) :
  status_code (requests_get env ApodApi.APOD_URL ApodApi.NASA_API_KEY d true) <> 200 ->
  add_apod_to_cache env d w = (Return 0, w).
Proof.
  intros Hs. unfold add_apod_to_cache, ApodApi.get_apod_info.
  destruct (Z.eqb_spec (status_code (requests_get env ApodApi.APOD_URL
                          ApodApi.NASA_API_KEY d true)) 200) as [E|_];
    [contradiction | reflexivity].
Qed.

(** X2.  When the download fails, a run returns 0 after that one download
    attempt: no file is saved and the table is as before. *)
Theorem add_apod_to_cache_download_fails (env : Env) (d : date) (w : world)
    (info : gmap string string) (t url : string) :
  ApodApi.get_apod_info env d = Some info ->
  info !! "title" = Some t -> info !! "url" = Some url ->
  image_lib_download_image env url = None ->
  add_apod_to_cache env d w =
    (Return 0,
     World (image_data w) (download_calls w ++ [url]) (save_calls w) (background w)).
Proof.
  intros Hinfo Ht Hu HB. unfold add_apod_to_cache. rewrite Hinfo.
  unfold bind, getitemM, getitem, download_image, ret.
  now rewrite Ht, Hu, HB.
Qed.

(** X3.  When the image is new and the file cannot be saved, a run returns
    0 and inserts no row; the failed call of [save_image_file] is the only
    one. *)
Theorem add_apod_to_cache_save_fails (env : Env) (d : date) (w : world)
    (info : gmap string string) (t url : string) (B : list byte) (rows : list row) :
  ApodApi.get_apod_info env d = Some info ->
  info !! "title" = Some t -> info !! "url" = Some url ->
  image_lib_download_image env url = Some B ->
  image_data w = Some rows ->
  (forall r, In r rows -> row_sha256 r <> PyStr.upper (Sha256.hexdigest B)) ->
  image_lib_save_image_file env B (determine_apod_file_path t url) = false ->
  add_apod_to_cache env d w =
    (Return 0,
     World (Some rows) (download_calls w ++ [url])
       (save_calls w ++ [SaveCall (determine_apod_file_path t url) B false])
       (background w)).
Proof.
  intros Hinfo Ht Hu HB Hw Hmiss Hsave.
  rewrite (add_apod_to_cache_miss env d w info t url B rows Hinfo Ht Hu HB Hw Hmiss).
  rewrite store_new_apod_eq. cbv zeta. now rewrite Hsave.
Qed.

(** X4.  When the image is new and saved but the INSERT fails, a run
    returns 0 with the table as before: the file that was just saved stays
    behind without a row. *)
Theorem add_apod_to_cache_insert_fails (env : Env) (d : date) (w : world)
    (info : gmap string string) (t url e : string) (B : list byte) (rows : list row) :
  ApodApi.get_apod_info env d = Some info ->
  info !! "title" = Some t -> info !! "url" = Some url ->
  info !! "explanation" = Some e ->
  image_lib_download_image env url = Some B ->
  image_data w = Some rows ->
  (forall r, In r rows -> row_sha256 r <> PyStr.upper (Sha256.hexdigest B)) ->
  image_lib_save_image_file env B (determine_apod_file_path t url) = true ->
  sqlite_insert_fails env = true ->
  add_apod_to_cache env d w =
    (Return 0,
     World (Some rows) (download_calls w ++ [url])
       (save_calls w ++ [SaveCall (determine_apod_file_path t url) B true])
       (background w)).
Proof.
  intros Hinfo Ht Hu He HB Hw Hmiss Hsave Hins.
  rewrite (add_apod_to_cache_miss env d w info t url B rows Hinfo Ht Hu HB Hw Hmiss).
  rewrite store_new_apod_eq. cbv zeta. rewrite Hsave, He.
  unfold add_apod_to_db. cbn [image_data]. now rewrite Hins.
Qed.

(** The world after a run that stored a new image. *)
Lemma add_apod_to_cache_stores (env : Env) (d : date) (w : world)
    (info : gmap string string) (t url e : string) (B : list byte) (rows : list row) :
  ApodApi.get_apod_info env d = Some info ->
  info !! "title" = Some t -> info !! "url" = Some url ->
  info !! "explanation" = Some e ->
  image_lib_download_image env url = Some B ->
  image_data w = Some rows ->
  (forall r, In r rows -> row_sha256 r <> PyStr.upper (Sha256.hexdigest B)) ->
  image_lib_save_image_file env B (determine_apod_file_path t url) = true ->
  sqlite_insert_fails env = false ->
  add_apod_to_cache env d w =
    (Return (next_rowid rows),
     World (Some (rows ++ [Row (next_rowid rows) t e (determine_apod_file_path t url)
                             (PyStr.upper (Sha256.hexdigest B))]))
       (download_calls w ++ [url])
       (save_calls w ++ [SaveCall (determine_apod_file_path t url) B true])
       (background w)).
Proof.
  intros Hinfo Ht Hu He HB Hw Hmiss Hsave Hins.
  rewrite (add_apod_to_cache_miss env d w info t url B rows Hinfo Ht Hu HB Hw Hmiss).
  rewrite store_new_apod_eq. cbv zeta. rewrite Hsave, He.
  unfold add_apod_to_db. cbn [image_data]. now rewrite Hins.
Qed.

(** X5.  When the image is new and every step works, a run downloads the
    URL once, saves the bytes once, at the derived path, appends one row
    with the record's title and explanation, that path and the upper-cased
    digest of the bytes, and returns the id of the row: one more than the
    largest id in use, or 1. *)
Theorem add_apod_to_cache_new_image (env : Env) (d : date) (w : world)
    (info : gmap string string) (t url e : string) (B : list byte) (rows : list row) :
  ApodApi.get_apod_info env d = Some info ->
  info !! "title" = Some t -> info !! "url" = Some url ->
  info !! "explanation" = Some e ->
  image_lib_download_image env url = Some B ->
  image_data w = Some rows ->
  (forall r, In r rows -> row_sha256 r <> PyStr.upper (Sha256.hexdigest B)) ->
  image_lib_save_image_file env B (determine_apod_file_path t url) = true ->
  sqlite_insert_fails env = false ->
  add_apod_to_cache env d w =
    (Return (next_rowid rows),
     World (Some (rows ++ [Row (next_rowid rows) t e (determine_apod_file_path t url)
                             (PyStr.upper (Sha256.hexdigest B))]))
       (download_calls w ++ [url])
       (save_calls w ++ [SaveCall (determine_apod_file_path t url) B true])
       (background w))
  /\ (forall r, In r rows -> row_id r < next_rowid rows)
  /\ (rows = [] -> next_rowid rows = 1).
Proof.
  intros Hinfo Ht Hu He HB Hw Hmiss Hsave Hins. split; [|split].
  - now apply (add_apod_to_cache_stores env d w info t url e B rows).
  - intros r. apply next_rowid_gt.
  - now intros ->.
Qed.

(** X6.  A record without a title or without a URL makes a run raise
    [KeyError] before anything is downloaded; a record without an
    explanation makes a run on a new image raise [KeyError] after the file
    was saved, and no row is inserted. *)
Theorem add_apod_to_cache_missing_key (env : Env) (d : date) (w : world)
    (info : gmap string string) :
  ApodApi.get_apod_info env d = Some info ->
  (info !! "title" = None ->
     add_apod_to_cache env d w = (Raise (KeyError "title"), w))
  /\ (forall t, info !! "title" = Some t -> info !! "url" = None ->
     add_apod_to_cache env d w = (Raise (KeyError "url"), w))
  /\ (forall t url B rows,
     info !! "title" = Some t -> info !! "url" = Some url ->
     info !! "explanation" = None ->
     image_lib_download_image env url = Some B ->
     image_data w = Some rows ->
     (forall r, In r rows -> row_sha256 r <> PyStr.upper (Sha256.hexdigest B)) ->
     image_lib_save_image_file env B (determine_apod_file_path t url) = true ->
     add_apod_to_cache env d w =
       (Raise (KeyError "explanation"),
        World (Some rows) (download_calls w ++ [url])
          (save_calls w ++ [SaveCall (determine_apod_file_path t url) B true])
          (background w))).
Proof.
  intros Hinfo. split; [|split].
  - intros Ht. unfold add_apod_to_cache. rewrite Hinfo.
    unfold bind, getitemM, getitem. now rewrite Ht.
  - intros t Ht Hu. unfold add_apod_to_cache. rewrite Hinfo.
    unfold bind, getitemM, getitem. now rewrite Ht, Hu.
  - intros t url B rows Ht Hu He HB Hw Hmiss Hsave.
    rewrite (add_apod_to_cache_miss env d w info t url B rows Hinfo Ht Hu HB Hw Hmiss).
    rewrite store_new_apod_eq. cbv zeta. now rewrite Hsave, He.
Qed.

(* ===================================================================== *)
(** * What every reachable cache looks like *)
(* ===================================================================== *)

Lemma ids_increasing_snoc (rows : list row) (new : row) :
  ids_increasing rows ->
  (forall r, In r rows -> row_id r < row_id new) ->
  ids_increasing (rows ++ [new]).
Proof.
  induction rows as [|r0 rows IH]; intros Hinc Hnew; cbn.
  - split; [constructor | exact I].
  - destruct Hinc as [H0 Hinc]. split.
    + apply List.Forall_app. split; [exact H0|].
      constructor; [|constructor]. apply Hnew. now left.
    + apply IH; [exact Hinc|]. intros r Hr. apply Hnew. now right.
Qed.

(** In a table with growing ids the position decides the order of the
    ids. *)
Lemma ids_increasing_lookup (rows : list row) (i j : nat) (ri rj : row) :
  ids_increasing rows ->
  rows !! i = Some ri -> rows !! j = Some rj -> (i < j)%nat ->
  row_id ri < row_id rj.
Proof.
  revert i j. induction rows as [|r0 rows IH]; intros i j Hinc Hi Hj Hlt.
  - discriminate.
  - destruct Hinc as [H0 Hinc]. destruct j as [|j]; [lia|].
    cbn in Hj. destruct i as [|i].
    + cbn in Hi. injection Hi as <-.
      apply (proj1 (List.Forall_forall _ _) H0 rj).
      apply list_elem_of_In, list_elem_of_lookup. now exists j.
    + cbn in Hi. apply (IH i j); auto. lia.
Qed.

(** With growing ids, the scan by id finds the one row that has the id. *)
Lemma find_id_unique (rows : list row) (r : row) :
  ids_increasing rows -> In r rows ->
  List.find (fun r' => row_id r' =? row_id r) rows = Some r.
Proof.
  induction rows as [|r0 rows IH]; intros Hinc Hin; [contradiction|].
  destruct Hinc as [H0 Hinc]. cbn.
  destruct Hin as [->|Hin].
  - now rewrite Z.eqb_refl.
  - pose proof (proj1 (List.Forall_forall _ _) H0 r Hin) as Hlt. cbn in Hlt.
    destruct (Z.eqb_spec (row_id r0) (row_id r)) as [E|_]; [lia|].
    now apply IH.
Qed.

Lemma file_saved_more (calls more : list save_call) (r : row) :
  file_saved calls r -> file_saved (calls ++ more) r.
Proof.
  intros [c [Hin H]]. exists c. split; [|exact H].
  apply List.in_or_app. now left.
Qed.

(** What storing a new image does to the table and to the saved files. *)
Lemma store_new_apod_step (env : Env) (info : gmap string string)
    (t url : string) (B : list byte) (w : world) (rows : list row) :
  image_data w = Some rows ->
  exists calls,
    save_calls (snd (store_new_apod env info t url B w)) = save_calls w ++ calls
    /\ (image_data (snd (store_new_apod env info t url B w)) = Some rows
        \/ exists new,
             image_data (snd (store_new_apod env info t url B w)) = Some (rows ++ [new])
             /\ row_id new = next_rowid rows
             /\ file_saved (save_calls (snd (store_new_apod env info t url B w))) new).
Proof.
  intros Hw. rewrite store_new_apod_eq. cbv zeta.
  exists [SaveCall (determine_apod_file_path t url) B
            (image_lib_save_image_file env B (determine_apod_file_path t url))].
  destruct (image_lib_save_image_file env B _) eqn:Hsave; [|cbn; auto].
  destruct (info !! "explanation") as [e|]; [|cbn; auto].
  unfold add_apod_to_db. cbn [image_data]. rewrite Hw.
  destruct (sqlite_insert_fails env); [cbn; auto|].
  cbn. split; [reflexivity|]. right. eexists. split; [reflexivity|].
  split; [reflexivity|].
  exists (SaveCall (determine_apod_file_path t url) B true). cbn.
  split; [|auto]. apply List.in_or_app. right. now left.
Qed.

(** What a run does to the table and to the saved files: the calls of
    [save_image_file] so far stay, and the table stays or gets one row,
    whose file was saved. *)
Lemma add_apod_to_cache_step (env : Env) (d : date) (w : world) (rows : list row) :
  image_data w = Some rows ->
  exists calls,
    save_calls (snd (add_apod_to_cache env d w)) = save_calls w ++ calls
    /\ (image_data (snd (add_apod_to_cache env d w)) = Some rows
        \/ exists new,
             image_data (snd (add_apod_to_cache env d w)) = Some (rows ++ [new])
             /\ row_id new = next_rowid rows
             /\ file_saved (save_calls (snd (add_apod_to_cache env d w))) new).
Proof.
  intros Hw. destruct (pipeline_bytes env d) as [B|] eqn:Hp.
  - destruct (pipeline_bytes_inv env d B Hp) as [info [t [url [Hinfo [Ht [Hu HB]]]]]].
    rewrite (add_apod_to_cache_run env d w info t url B rows Hinfo Ht Hu HB Hw).
    cbv zeta.
    pose proof (store_new_apod_step env info t url B
                  (World (Some rows) (download_calls w ++ [url]) (save_calls w)
                     (background w)) rows eq_refl) as Hstore.
    destruct (List.find _ rows) as [r|]; [|exact Hstore].
    destruct (row_id r =? 0); [exact Hstore|].
    exists []. cbn. rewrite List.app_nil_r. auto.
  - destruct (add_apod_to_cache_no_bytes env d w Hp) as [_ [Htab Hsave]].
    exists []. rewrite Htab, Hsave, Hw, List.app_nil_r. auto.
Qed.

Lemma init_apod_cache_world (w : world) :
  image_data (snd (init_apod_cache w)) =
    Some (match image_data w with Some rows => rows | None => [] end)
  /\ download_calls (snd (init_apod_cache w)) = download_calls w
  /\ save_calls (snd (init_apod_cache w)) = save_calls w
  /\ background (snd (init_apod_cache w)) = background w.
Proof.
  unfold init_apod_cache. destruct (image_data w) as [rows|] eqn:Hw; cbn; auto.
Qed.

Lemma init_apod_cache_consistent (w : world) :
  cache_consistent w -> cache_consistent (snd (init_apod_cache w)).
Proof.
  unfold cache_consistent.
  destruct (init_apod_cache_world w) as [Htab [_ [Hsave _]]].
  rewrite Htab, Hsave. destruct (image_data w); [trivial|].
  intros _. split; [exact I | constructor].
Qed.

Lemma add_apod_to_cache_consistent (env : Env) (d : date) (w : world) :
  cache_consistent w -> cache_consistent (snd (add_apod_to_cache env d w)).
Proof.
  unfold cache_consistent. destruct (image_data w) as [rows|] eqn:Hw.
  - intros [Hinc Hfiles].
    destruct (add_apod_to_cache_step env d w rows Hw)
      as [calls [Hsave [Htab | [new [Htab [Hid Hnew]]]]]]; rewrite Htab.
    + split; [exact Hinc|]. rewrite Hsave.
      apply List.Forall_forall. intros r Hr. apply file_saved_more.
      exact (proj1 (List.Forall_forall _ _) Hfiles r Hr).
    + split.
      * apply ids_increasing_snoc; [exact Hinc|].
        intros r Hr. rewrite Hid. now apply next_rowid_gt.
      * apply List.Forall_app. split; [|now constructor].
        rewrite Hsave. apply List.Forall_forall. intros r Hr.
        apply file_saved_more.
        exact (proj1 (List.Forall_forall _ _) Hfiles r Hr).
  - intros _. destruct (add_apod_to_cache_no_table env d w Hw) as [Htab _].
    now rewrite Htab.
Qed.

Lemma reachable_consistent (w : world) : reachable w -> cache_consistent w.
Proof.
  induction 1 as [|w _ IH|env d w _ IH|env d w _ IH].
  - exact I.
  - now apply init_apod_cache_consistent.
  - now apply add_apod_to_cache_consistent.
  - unfold cache_consistent.
    destruct (main_world env d w) as [Htab Hsave]. rewrite Htab, Hsave.
    apply add_apod_to_cache_consistent, init_apod_cache_consistent, IH.
Qed.

(** X7.  In every world the program can reach the ids grow along the
    table: a row further down the scan has a larger id, so no id is used
    twice. *)
Theorem ids_grow_with_position (w : world) (rows : list row)
    (i j : nat) (ri rj : row) :
  reachable w -> image_data w = Some rows ->
  rows !! i = Some ri -> rows !! j = Some rj ->
  ((i < j)%nat -> row_id ri < row_id rj)
  /\ (row_id ri = row_id rj -> i = j).
Proof.
  intros Hreach Hw Hi Hj.
  pose proof (reachable_consistent w Hreach) as Hc.
  unfold cache_consistent in Hc. rewrite Hw in Hc. destruct Hc as [Hinc _].
  split.
  - now apply (ids_increasing_lookup rows i j).
  - intros E. destruct (Nat.lt_total i j) as [Hlt|[Heq|Hgt]]; [|exact Heq|].
    + pose proof (ids_increasing_lookup rows i j ri rj Hinc Hi Hj Hlt). lia.
    + pose proof (ids_increasing_lookup rows j i rj ri Hinc Hj Hi Hgt). lia.
Qed.

(** X8.  In every world the program can reach each row of the table has
    its file: the run that inserted the row made a successful call of
    [save_image_file] with the path of the row and with bytes whose
    upper-cased SHA-256 digest is the hash of the row. *)
Theorem every_row_was_saved (w : world) (rows : list row) (r : row) :
  reachable w -> image_data w = Some rows -> In r rows ->
  exists c,
    In c (save_calls w)
    /\ saved_path c = row_file_path r
    /\ saved_ok c = true
    /\ PyStr.upper (Sha256.hexdigest (saved_data c)) = row_sha256 r.
Proof.
  intros Hreach Hw Hin.
  pose proof (reachable_consistent w Hreach) as Hc.
  unfold cache_consistent in Hc. rewrite Hw in Hc. destruct Hc as [_ Hfiles].
  exact (proj1 (List.Forall_forall _ _) Hfiles r Hin).
Qed.

(** X9.  A run of [add_apod_to_cache], and so a run of [main], never
    removes or changes a row and never forgets a saved file: the table after
    the run is the table before it with at most one row appended, and the
    calls of [save_image_file] before it are a prefix of those after it. *)
Theorem table_only_grows (env : Env) (d : date) (w : world) (rows : list row) :
  image_data w = Some rows ->
  (exists tail calls,
     image_data (snd (add_apod_to_cache env d w)) = Some (rows ++ tail)
     /\ (List.length tail <= 1)%nat
     /\ save_calls (snd (add_apod_to_cache env d w)) = save_calls w ++ calls)
  /\ (exists tail calls,
     image_data (snd (main env d w)) = Some (rows ++ tail)
     /\ (List.length tail <= 1)%nat
     /\ save_calls (snd (main env d w)) = save_calls w ++ calls).
Proof.
  intros Hw.
  assert (Hstep : forall w0, image_data w0 = Some rows ->
    exists tail calls,
      image_data (snd (add_apod_to_cache env d w0)) = Some (rows ++ tail)
      /\ (List.length tail <= 1)%nat
      /\ save_calls (snd (add_apod_to_cache env d w0)) = save_calls w0 ++ calls).
  { intros w0 Hw0.
    destruct (add_apod_to_cache_step env d w0 rows Hw0)
      as [calls [Hsave [Htab | [new [Htab _]]]]].
    - exists [], calls. rewrite List.app_nil_r. cbn. auto.
    - exists [new], calls. cbn. auto. }
  split; [now apply Hstep|].
  destruct (main_world env d w) as [Htab Hsave]. rewrite Htab, Hsave.
  destruct (init_apod_cache_world w) as [Htab0 [_ [Hsave0 _]]].
  rewrite Hw in Htab0. destruct (Hstep _ Htab0) as [tail [calls [H1 [H2 H3]]]].
  exists tail, calls. now rewrite H1, H3, Hsave0.
Qed.

(* ===================================================================== *)
(** * Initialising, inserting and looking up *)
(* ===================================================================== *)


Lemma find_app_r {A : Type} (f : A -> bool) (l l' : list A) :
  List.find f l = None -> List.find f (l ++ l') = List.find f l'.
Proof.
  induction l as [|a l IH]; cbn; [reflexivity|].
  destruct (f a); [discriminate | exact IH].
Qed.

Lemma info_of_row_lookup (r : row) :
  info_of_row r !! "title" = Some (row_title r)
  /\ info_of_row r !! "explanation" = Some (row_explanation r)
  /\ info_of_row r !! "file_path" = Some (row_file_path r).
Proof.
  unfold info_of_row. split; [|split].
  - apply lookup_insert_eq.
  - rewrite lookup_insert_ne by discriminate. apply lookup_insert_eq.
  - rewrite !lookup_insert_ne by discriminate. apply lookup_singleton_eq.
Qed.

(** X11.  Insert, then look up: when [add_apod_to_db] returns an id other
    than 0, [get_apod_info] of that id returns the title, the explanation
    and the file path that were inserted. *)
Theorem add_apod_to_db_then_get_apod_info (env : Env) (t e p h : string)
    (w : world) (i : Z) :
  fst (add_apod_to_db env t e p h w) = Return i -> i <> 0 ->
  exists info,
    get_apod_info i (snd (add_apod_to_db env t e p h w))
      = (Return info, snd (add_apod_to_db env t e p h w))
    /\ info !! "title" = Some t
    /\ info !! "explanation" = Some e
    /\ info !! "file_path" = Some p.
Proof.
  intros Hres Hne.
  destruct (add_apod_to_db_cases env t e p h w) as [[H0 _] | [rows [Hw [_ [Hr Htab]]]]].
  - rewrite H0 in Hres. injection Hres as <-. contradiction.
  - rewrite Hr in Hres. injection Hres as <-.
    exists (info_of_row (Row (next_rowid rows) t e p (PyStr.upper h))).
    split; [|apply (info_of_row_lookup (Row (next_rowid rows) t e p (PyStr.upper h)))].
    unfold get_apod_info. rewrite Htab.
    rewrite find_app_r.
    + cbn. now rewrite Z.eqb_refl.
    + apply find_id_None. intros r Hin.
      pose proof (next_rowid_gt rows r Hin). lia.
Qed.

(** X12.  In a world the program can reach, when [add_apod_to_cache]
    returns an id other than 0, [main] ends normally and hands to
    [set_desktop_background_image] the file path of the row of that id, a
    path at which a file was saved. *)
Theorem main_sets_background (env : Env) (d : date) (w : world) (i : Z) :
  reachable w ->
  fst (add_apod_to_cache env d (snd (init_apod_cache w))) = Return i -> i <> 0 ->
  exists rows r,
    image_data (snd (main env d w)) = Some rows
    /\ In r rows /\ row_id r = i
    /\ fst (main env d w) = Return tt
    /\ background (snd (main env d w)) = Some (row_file_path r)
    /\ exists c, In c (save_calls (snd (main env d w)))
         /\ saved_path c = row_file_path r /\ saved_ok c = true.
Proof.
  intros Hreach Hres Hne.
  pose proof (reach_init w Hreach) as Hreach0.
  pose proof (reach_add env d _ Hreach0) as Hreach1.
  pose proof (reachable_ok _ Hreach0) as Hok0.
  pose proof (reachable_consistent _ Hreach1) as Hc1.
  destruct (init_apod_cache_table w) as [Hinit [rows0 Hw0]].
  assert (exists rows r,
            image_data (snd (add_apod_to_cache env d (snd (init_apod_cache w)))) = Some rows
            /\ In r rows /\ row_id r = i) as [rows [r [Htab [Hin Hid]]]].
  { destruct (add_apod_to_cache_effect env d _ rows0 Hok0 Hw0)
      as [[Htab Hret] | [new [Htab [Hnew _]]]].
    - destruct (Hret i Hres Hne) as [_ [r [Hin [Hi _]]]]. now exists rows0, r.
    - rewrite Hnew in Hres. injection Hres as <-.
      exists (rows0 ++ [new]), new. repeat split; auto.
      apply List.in_or_app. right. now left. }
  unfold cache_consistent in Hc1. rewrite Htab in Hc1. destruct Hc1 as [Hinc Hfiles].
  destruct (proj1 (List.Forall_forall _ _) Hfiles r Hin) as [c [Hc [Hpath [Hsaved _]]]].
  exists rows, r.
  unfold main, bind.
  destruct (init_apod_cache w) as [[[]|e0] w0]; [|discriminate].
  cbn [fst snd] in *.
  destruct (add_apod_to_cache env d w0) as [res w1]. cbn [fst snd] in *. subst res.
  unfold get_apod_info. rewrite Htab, <- Hid, (find_id_unique rows r Hinc Hin).
  unfold getitemM, getitem.
  fold (info_of_row r).
  rewrite (proj2 (proj2 (info_of_row_lookup r))).
  cbn. repeat split; auto. now exists c.
Qed.

(* ===================================================================== *)
(** * The date of the command line *)
(* ===================================================================== *)

(** X13.  With no argument [get_apod_date] returns today's date, unchecked.
    With an argument it returns the parsed date exactly when the argument
    parses and the date is neither before 1995-06-16 nor after today, both
    ends included; in every other case it exits with
    "Script execution aborted". *)
Theorem get_apod_date_range (host : Host) (first : date) :
  date_fromisoformat host "1995-06-16" = Some first ->
  ((List.length (sys_argv host) <= 1)%nat ->
     get_apod_date host = Started (date_today host))
  /\ ((2 <= List.length (sys_argv host))%nat ->
      (forall d,
         get_apod_date host = Started d
         <-> date_fromisoformat host (List.nth 1 (sys_argv host) EmptyString) = Some d
             /\ date_ltb d first = false
             /\ date_ltb (date_today host) d = false)
      /\ (get_apod_date host = SystemExit "Script execution aborted"
          \/ exists d, get_apod_date host = Started d)).
Proof.
  intros Hfirst. unfold get_apod_date. rewrite Hfirst. split.
  - intros Hlen.
    destruct (Z.leb_spec 1 (Z.of_nat (List.length (sys_argv host)) - 1)) as [H|_];
      [lia | reflexivity].
  - intros Hlen.
    destruct (Z.leb_spec 1 (Z.of_nat (List.length (sys_argv host)) - 1)) as [_|H];
      [|lia].
    destruct (date_fromisoformat host (List.nth 1 (sys_argv host) EmptyString))
      as [a|].
    + destruct (date_ltb a first) eqn:E1.
      * split; [|now left]. intros d. split; [discriminate|].
        intros [[= <-] [H _]]. congruence.
      * destruct (date_ltb (date_today host) a) eqn:E2.
        -- split; [|now left]. intros d. split; [discriminate|].
           intros [[= <-] [_ H]]. congruence.
        -- split; [|right; now exists a]. intros d. split.
           ++ now intros [= <-].
           ++ now intros [[= <-] _].
    + split; [|now left]. intros d. split; [discriminate|].
      now intros [H _].
Qed.

(** X14.  The script checks the date before it does anything else: with an
    argument that does not parse, or whose date is before 1995-06-16 or
    after today, it exits and leaves the world as it is (no table is
    created, nothing is downloaded or saved); with a date in range it runs
    [main] on that date. *)
Theorem run_script_checks_date_first (host : Host) (env : Env) (w : world)
    (first : date) :
  date_fromisoformat host "1995-06-16" = Some first ->
  (2 <= List.length (sys_argv host))%nat ->
  ((forall d, date_fromisoformat host (List.nth 1 (sys_argv host) EmptyString) = Some d ->
      date_ltb d first = true \/ date_ltb (date_today host) d = true) ->
     run_script host env w = (SystemExit "Script execution aborted", w))
  /\ (forall d,
        date_fromisoformat host (List.nth 1 (sys_argv host) EmptyString) = Some d ->
        date_ltb d first = false -> date_ltb (date_today host) d = false ->
        run_script host env w = (Started (fst (main env d w)), snd (main env d w))).
Proof.
  intros Hfirst Hlen. unfold run_script, get_apod_date. rewrite Hfirst.
  destruct (Z.leb_spec 1 (Z.of_nat (List.length (sys_argv host)) - 1)) as [_|H];
    [|lia].
  split.
  - intros Hbad.
    destruct (date_fromisoformat host (List.nth 1 (sys_argv host) EmptyString))
      as [a|]; [|reflexivity].
    destruct (Hbad a eq_refl) as [E|E].
    + now rewrite E.
    + rewrite E. now destruct (date_ltb a first).
  - intros d Hd E1 E2. now rewrite Hd, E1, E2.
Qed.

(* ===================================================================== *)
(** * More on the file name *)
(* ===================================================================== *)

Lemma is_word_no_space (c : ascii) :
  PyStr.is_word c = true -> PyStr.isspace c = false /\ Ascii.eqb c " " = false.
Proof.
  destruct c as [[] [] [] [] [] [] [] []]; vm_compute; intros H;
    first [discriminate H | split; reflexivity].
Qed.

Lemma keep_word_all_word (s : string) :
  StrSpec.all_chars PyStr.is_word (StrSpec.keep_word s) = true.
Proof.
  induction s as [|a s IH]; cbn; [reflexivity|].
  destruct (PyStr.is_word a) eqn:E; [cbn; now rewrite E | exact IH].
Qed.

Lemma keep_word_length (s : string) :
  (String.length (StrSpec.keep_word s) <= String.length s)%nat.
Proof.
  induction s as [|a s IH]; cbn; [lia|].
  destruct (PyStr.is_word a); cbn; lia.
Qed.

Lemma underscore_spaces_length (s : string) :
  String.length (StrSpec.underscore_spaces s) = String.length s.
Proof. induction s as [|a s IH]; cbn; [reflexivity | now rewrite IH]. Qed.

Lemma append_length (s t : string) :
  String.length (s +:+ t) = (String.length s + String.length t)%nat.
Proof.
  induction s as [|a s IH]; [reflexivity|].
  rewrite append_String. cbn. now rewrite IH.
Qed.

Lemma strip_length (s : string) :
  (String.length (PyStr.strip s) <= String.length s)%nat.
Proof.
  destruct (strip_spec s) as [l [r [H _]]].
  rewrite H at 2. rewrite !append_length. lia.
Qed.

Lemma word_only_fixed (s : string) :
  StrSpec.all_chars PyStr.is_word s = true ->
  PyStr.lstrip s = s /\ PyStr.rstrip s = s
  /\ StrSpec.underscore_spaces s = s /\ StrSpec.keep_word s = s.
Proof.
  induction s as [|a s IH]; cbn; [auto|].
  intros H. apply andb_true_iff in H as [Ha Hs].
  destruct (IH Hs) as [_ [Hr [Hu Hk]]].
  destruct (is_word_no_space a Ha) as [Hsp Heq].
  rewrite Ha, Hsp, Heq, Hr, Hu, Hk.
  repeat split. now destruct s.
Qed.

(** X15.  For an ASCII title, the part of the file name that comes from
    the title holds letters, digits and underscores only (no space, dot or
    path separator comes from the title), is never longer than the title,
    and is the title itself when the title is already such a name. *)
Theorem file_name_from_title (image_title image_url : string) :
  StrSpec.ascii_text image_title ->
  exists name,
    determine_apod_file_path image_title image_url =
      os_path_join image_cache_dir (name +:+ "." +:+ StrSpec.url_extension image_url)
    /\ StrSpec.all_chars PyStr.is_word name = true
    /\ (String.length name <= String.length image_title)%nat
    /\ (StrSpec.all_chars PyStr.is_word image_title = true -> name = image_title).
Proof.
  intros _.
  exists (StrSpec.keep_word (StrSpec.underscore_spaces (PyStr.strip image_title))).
  split; [|split; [|split]].
  - unfold determine_apod_file_path.
    now rewrite file_ext_url_extension, replace_space_underscore,
      re_sub_W_empty, join_pair.
  - apply keep_word_all_word.
  - pose proof (keep_word_length (StrSpec.underscore_spaces (PyStr.strip image_title))).
    rewrite underscore_spaces_length in H.
    pose proof (strip_length image_title). lia.
  - intros H. destruct (word_only_fixed image_title H) as [Hl [Hr [Hu Hk]]].
    unfold PyStr.strip. now rewrite Hl, Hr, Hu, Hk.
Qed.

Lemma determine_apod_file_path_same_extension (t u1 u2 : string) :
  StrSpec.url_extension u1 = StrSpec.url_extension u2 ->
  determine_apod_file_path t u1 = determine_apod_file_path t u2.
Proof.
  intros H. unfold determine_apod_file_path.
  now rewrite !file_ext_url_extension, H.
Qed.

(** X16.  Two different images under the same title, from URLs with the
    same extension, are saved at the same path: after both runs the table
    has two rows with different hashes and one file path, and the second
    [save_image_file] wrote the bytes of the second image over the file of
    the first row. *)
Theorem same_title_overwrites_file (env1 env2 : Env) (d1 d2 : date) (w : world)
    (info1 info2 : gmap string string) (t u1 u2 e1 e2 : string)
    (B1 B2 : list byte) (rows : list row) :
  image_data w = Some rows ->
  ApodApi.get_apod_info env1 d1 = Some info1 ->
  info1 !! "title" = Some t -> info1 !! "url" = Some u1 ->
  info1 !! "explanation" = Some e1 ->
  image_lib_download_image env1 u1 = Some B1 ->
  image_lib_save_image_file env1 B1 (determine_apod_file_path t u1) = true ->
  sqlite_insert_fails env1 = false ->
  ApodApi.get_apod_info env2 d2 = Some info2 ->
  info2 !! "title" = Some t -> info2 !! "url" = Some u2 ->
  info2 !! "explanation" = Some e2 ->
  image_lib_download_image env2 u2 = Some B2 ->
  image_lib_save_image_file env2 B2 (determine_apod_file_path t u2) = true ->
  sqlite_insert_fails env2 = false ->
  StrSpec.url_extension u1 = StrSpec.url_extension u2 ->
  (forall r, In r rows -> row_sha256 r <> PyStr.upper (Sha256.hexdigest B1)) ->
  (forall r, In r rows -> row_sha256 r <> PyStr.upper (Sha256.hexdigest B2)) ->
  PyStr.upper (Sha256.hexdigest B1) <> PyStr.upper (Sha256.hexdigest B2) ->
  exists r1 r2,
    image_data (snd (add_apod_to_cache env2 d2 (snd (add_apod_to_cache env1 d1 w))))
      = Some (rows ++ [r1; r2])
    /\ row_file_path r1 = row_file_path r2
    /\ row_sha256 r1 = PyStr.upper (Sha256.hexdigest B1)
    /\ row_sha256 r2 = PyStr.upper (Sha256.hexdigest B2)
    /\ row_sha256 r1 <> row_sha256 r2
    /\ save_calls (snd (add_apod_to_cache env2 d2 (snd (add_apod_to_cache env1 d1 w))))
       = save_calls w ++ [SaveCall (row_file_path r1) B1 true;
                          SaveCall (row_file_path r1) B2 true].
Proof.
  intros Hw Hi1 Ht1 Hu1 He1 HB1 Hs1 Hf1 Hi2 Ht2 Hu2 He2 HB2 Hs2 Hf2 Hext Hm1 Hm2 Hne.
  pose proof (determine_apod_file_path_same_extension t u1 u2 Hext) as Hpath.
  rewrite (add_apod_to_cache_stores env1 d1 w info1 t u1 e1 B1 rows
             Hi1 Ht1 Hu1 He1 HB1 Hw Hm1 Hs1 Hf1).
  cbn [snd].
  set (r1 := Row (next_rowid rows) t e1 (determine_apod_file_path t u1)
               (PyStr.upper (Sha256.hexdigest B1))).
  assert (Hm : forall r, In r (rows ++ [r1]) ->
                 row_sha256 r <> PyStr.upper (Sha256.hexdigest B2)).
  { intros r Hr. apply List.in_app_or in Hr as [Hr|[<-|[]]]; [now apply Hm2 | exact Hne]. }
  rewrite (add_apod_to_cache_stores env2 d2
             (World (Some (rows ++ [r1])) (download_calls w ++ [u1])
                (save_calls w ++ [SaveCall (determine_apod_file_path t u1) B1 true])
                (background w))
             info2 t u2 e2 B2 (rows ++ [r1])
             Hi2 Ht2 Hu2 He2 HB2 eq_refl Hm Hs2 Hf2).
  cbn [snd image_data save_calls].
  exists r1, (Row (next_rowid (rows ++ [r1])) t e2 (determine_apod_file_path t u2)
                (PyStr.upper (Sha256.hexdigest B2))).
  cbn [row_file_path row_sha256 r1].
  rewrite <- !List.app_assoc. cbn [List.app]. rewrite Hpath.
  repeat split; auto.
Qed.

(* ===================================================================== *)
(** * The hash column is not unique by itself *)
(* ===================================================================== *)

Lemma find_app_l {A : Type} (f : A -> bool) (l l' : list A) (x : A) :
  List.find f l = Some x -> List.find f (l ++ l') = Some x.
Proof.
  induction l as [|a l IH]; cbn; [discriminate|].
  destruct (f a); [trivial | exact IH].
Qed.

(** X17.  Insert, then look up by hash: after [add_apod_to_db] returned an
    id other than 0 for a hash no row had, [get_apod_id_from_db] returns that
    id for the hash in any letter case.  But [add_apod_to_db] itself does
    not refuse a hash that a row already has: it inserts a second row with
    it, and [get_apod_id_from_db] goes on returning the id of the older
    row. *)
Theorem add_apod_to_db_then_get_apod_id (env : Env) (t e p h : string)
    (w : world) (rows : list row) (i : Z) :
  image_data w = Some rows ->
  fst (add_apod_to_db env t e p h w) = Return i -> i <> 0 ->
  image_data (snd (add_apod_to_db env t e p h w))
    = Some (rows ++ [Row i t e p (PyStr.upper h)])
  /\ ((forall r, In r rows -> row_sha256 r <> PyStr.upper h) ->
      forall h', StrSpec.case_variant h' h = true ->
      get_apod_id_from_db h' (snd (add_apod_to_db env t e p h w))
        = (Return i, snd (add_apod_to_db env t e p h w)))
  /\ (forall r0,
        List.find (fun r => String.eqb (row_sha256 r) (PyStr.upper h)) rows = Some r0 ->
        get_apod_id_from_db h (snd (add_apod_to_db env t e p h w))
          = (Return (row_id r0), snd (add_apod_to_db env t e p h w))).
Proof.
  intros Hw Hres Hne.
  destruct (add_apod_to_db_cases env t e p h w) as [[H0 _] | [rows0 [Hw0 [_ [Hr Htab]]]]].
  - rewrite H0 in Hres. injection Hres as <-. contradiction.
  - rewrite Hw in Hw0. injection Hw0 as <-.
    rewrite Hr in Hres. injection Hres as <-.
    split; [exact Htab|]. split.
    + intros Hfresh h' Hh'. apply case_variant_upper in Hh'.
      unfold get_apod_id_from_db. rewrite Htab, Hh'.
      rewrite (find_app_r _ rows _ (find_sha_miss _ rows Hfresh)).
      cbn. now rewrite String.eqb_refl.
    + intros r0 Hfind. unfold get_apod_id_from_db. rewrite Htab.
      now rewrite (find_app_l _ rows _ r0 Hfind).
Qed.

End ApodDesktop.

(* ===================================================================== *)
(** * The statements at concrete inputs *)
(* ===================================================================== *)

(** The digests of three messages, as [hashlib] gives them: one block, the
    empty message, and a message of 56 bytes, which takes two blocks. *)
Example hexdigest_abc :
  Sha256.hexdigest (bytes_of_string "abc")
  = "ba7816bf8f01cfea414140de5dae2223b00361a396177a9cb410ff61f20015ad".
Proof. vm_compute. reflexivity. Qed.

Example hexdigest_empty :
  Sha256.hexdigest []
  = "e3b0c44298fc1c149afbf4c8996fb92427ae41e4649b934ca495991b7852b855".
Proof. vm_compute. reflexivity. Qed.

Example hexdigest_two_blocks :
  Sha256.hexdigest
    (bytes_of_string "abcdbcdecdefdefgefghfghighijhijkijkljklmklmnlmnomnopnopq")
  = "248d6a61d20638b8e5c026930c3e6039a33ce45964ff2167f6ecedd419db06c1".
Proof. vm_compute. reflexivity. Qed.

(** A first run caches "abc" under id 1; a run for another date, title and
    URL that downloads the same bytes returns 1 and stores nothing. *)
Lemma add_apod_to_cache_dedup_twice :
  fst (add_apod_to_cache home PyStr.posixpath_join env_other_title another_date
         (snd (add_apod_to_cache home PyStr.posixpath_join env_ok a_date empty_cache)))
  = Return 1
  /\ image_data
       (snd (add_apod_to_cache home PyStr.posixpath_join env_other_title another_date
          (snd (add_apod_to_cache home PyStr.posixpath_join env_ok a_date empty_cache))))
     = image_data (snd (add_apod_to_cache home PyStr.posixpath_join env_ok a_date empty_cache))
  /\ save_calls
       (snd (add_apod_to_cache home PyStr.posixpath_join env_other_title another_date
          (snd (add_apod_to_cache home PyStr.posixpath_join env_ok a_date empty_cache))))
     = save_calls (snd (add_apod_to_cache home PyStr.posixpath_join env_ok a_date empty_cache)).
Proof.
  refine (proj2 (add_apod_to_cache_dedup home PyStr.posixpath_join env_ok a_date
                   empty_cache (bytes_of_string "abc") _ _)
            1 _ _ env_other_title another_date _).
  - apply (reach_init home PyStr.posixpath_join fresh_world), reach_fresh.
  - vm_compute. reflexivity.
  - vm_compute. reflexivity.
  - discriminate.
  - vm_compute. reflexivity.
Defined.

(** The row of "abc" stores its digest in upper case, and the lookup finds
    it under every spelling of the digest. *)
Lemma stored_hash_of_abc :
  exists rows r,
    image_data (snd (add_apod_to_cache home PyStr.posixpath_join env_ok a_date empty_cache))
      = Some rows
    /\ In r rows /\ row_id r = 1
    /\ row_sha256 r = PyStr.upper (Sha256.hexdigest (bytes_of_string "abc"))
    /\ StrSpec.all_chars StrSpec.is_upper_hex (row_sha256 r) = true
    /\ String.length (row_sha256 r) = 64%nat
    /\ forall h,
         StrSpec.case_variant h (Sha256.hexdigest (bytes_of_string "abc")) = true ->
         get_apod_id_from_db h
           (snd (add_apod_to_cache home PyStr.posixpath_join env_ok a_date empty_cache))
         = (Return 1,
            snd (add_apod_to_cache home PyStr.posixpath_join env_ok a_date empty_cache)).
Proof.
  refine (stored_hash_is_upper_hexdigest home PyStr.posixpath_join env_ok a_date
            empty_cache (bytes_of_string "abc") 1 _ _ _ _).
  - apply (reach_init home PyStr.posixpath_join fresh_world), reach_fresh.
  - vm_compute. reflexivity.
  - vm_compute. reflexivity.
  - discriminate.
Defined.



(** The URL selected for an image record, a video record with and without
    a thumbnail, and a record of another media type. *)
Lemma get_apod_image_url_examples :
  ApodApi.get_apod_image_url image_record = Return (Some "http://x/test.png")
  /\ ApodApi.get_apod_image_url video_record_thumb = Return (Some "http://x/thumb.jpg")
  /\ ApodApi.get_apod_image_url video_record = Raise (KeyError "thumbnail_url")
  /\ ApodApi.get_apod_image_url other_record = Return None.
Proof.
  split; [|split; [|split]].
  - apply (proj1 (get_apod_image_url_cases image_record)); vm_compute; reflexivity.
  - apply (proj1 (proj2 (get_apod_image_url_cases video_record_thumb)));
      vm_compute; reflexivity.
  - apply (proj1 (proj2 (proj2 (get_apod_image_url_cases video_record))));
      vm_compute; reflexivity.
  - apply (proj2 (proj2 (proj2 (get_apod_image_url_cases other_record))) "audio");
      [vm_compute; reflexivity | discriminate | discriminate].
Defined.

(** C5 (as stated) fails: for the media type "audio" nothing is raised;
    the function returns [None]. *)
Lemma get_apod_image_url_other_media_type :
  other_record !! "media_type" = Some "audio"
  /\ ApodApi.get_apod_image_url other_record = Return None
  /\ ~ (exists e, ApodApi.get_apod_image_url other_record = Raise e).
Proof.
  split; [vm_compute; reflexivity|]. split; [vm_compute; reflexivity|].
  intros [e H]. vm_compute in H. discriminate.
Defined.

(** The cache after one run: its one id is 1, the lookup of a hash
    returns 0 exactly when the hash is not the one of the row, and a second
    run returns an id of the table. *)
Lemma zero_is_no_entry_id_example :
  (forall r,
     In r [Row 1 "Test Image" "An example." "/home/apod/images/Test_Image.jpg"
             "BA7816BF8F01CFEA414140DE5DAE2223B00361A396177A9CB410FF61F20015AD"] ->
     1 <= row_id r /\ row_id r <> 0)
  /\ (forall h,
        fst (get_apod_id_from_db h
               (snd (add_apod_to_cache home PyStr.posixpath_join env_ok a_date empty_cache)))
        = Return 0
        <-> forall r,
              In r [Row 1 "Test Image" "An example." "/home/apod/images/Test_Image.jpg"
                      "BA7816BF8F01CFEA414140DE5DAE2223B00361A396177A9CB410FF61F20015AD"] ->
              row_sha256 r <> PyStr.upper h).
Proof.
  pose proof (zero_is_no_entry_id home PyStr.posixpath_join
                (snd (add_apod_to_cache home PyStr.posixpath_join env_ok a_date empty_cache))
                [Row 1 "Test Image" "An example." "/home/apod/images/Test_Image.jpg"
                   "BA7816BF8F01CFEA414140DE5DAE2223B00361A396177A9CB410FF61F20015AD"])
    as H.
  assert (Hreach : reachable home PyStr.posixpath_join
            (snd (add_apod_to_cache home PyStr.posixpath_join env_ok a_date empty_cache))).
  { apply reach_add, (reach_init home PyStr.posixpath_join fresh_world), reach_fresh. }
  assert (Htab : image_data
            (snd (add_apod_to_cache home PyStr.posixpath_join env_ok a_date empty_cache))
          = Some [Row 1 "Test Image" "An example." "/home/apod/images/Test_Image.jpg"
                    "BA7816BF8F01CFEA414140DE5DAE2223B00361A396177A9CB410FF61F20015AD"]).
  { vm_compute. reflexivity. }
  destruct (H Hreach Htab) as [H1 [_ [H3 _]]].
  exact (conj H1 H3).
Defined.

(** [get_apod_info] on the empty cache. *)
Lemma get_apod_info_empty_cache :
  fst (get_apod_info 1 empty_cache) = Raise TypeError
  /\ snd (get_apod_info 1 empty_cache) = empty_cache
  /\ ~ (exists info, fst (get_apod_info 1 empty_cache) = Return info).
Proof.
  apply (get_apod_info_unknown_id 1 empty_cache []); [reflexivity|].
  intros r [].
Defined.

(** [main] when the API answers 404. *)
Lemma main_without_metadata :
  fst (main home PyStr.posixpath_join env_no_metadata a_date fresh_world) = Raise TypeError.
Proof.
  apply main_raises_after_failure; [apply reach_fresh | vm_compute; reflexivity].
Defined.

(** Titles "A" then "B". *)
Lemma get_all_apod_titles_A_B :
  get_all_apod_titles
    (add_all [Insertion env_ok "A" "first" "/c/A.jpg" "aa";
              Insertion env_ok "B" "second" "/c/B.jpg" "bb"] empty_cache)
  = (Return ["A"; "B"],
     add_all [Insertion env_ok "A" "first" "/c/A.jpg" "aa";
              Insertion env_ok "B" "second" "/c/B.jpg" "bb"] empty_cache).
Proof.
  exact (get_all_apod_titles_insertion_order
           [Insertion env_ok "A" "first" "/c/A.jpg" "aa";
            Insertion env_ok "B" "second" "/c/B.jpg" "bb"] empty_cache [] eq_refl).
Defined.

(** For [image_record] the selected URL is the field [hdurl], and the run
    downloads the field [url] and names the file after it. *)
Lemma add_apod_to_cache_downloads_url_example :
  ApodApi.get_apod_image_url image_record = Return (Some "http://x/test.png")
  /\ download_calls (snd (add_apod_to_cache home PyStr.posixpath_join env_ok a_date empty_cache))
     = [] ++ ["http://x/small.jpg"]
  /\ List.map saved_path
       (save_calls (snd (add_apod_to_cache home PyStr.posixpath_join env_ok a_date empty_cache)))
     = ["/home/apod/images/Test_Image.jpg"].
Proof.
  split; [vm_compute; reflexivity|]. split; [|vm_compute; reflexivity].
  apply (proj1 (add_apod_to_cache_downloads_url home PyStr.posixpath_join env_ok a_date
                  empty_cache image_record "Test Image" "http://x/small.jpg"
                  eq_refl eq_refl eq_refl)).
Defined.

(* ===================================================================== *)
(** * The further statements at concrete inputs *)
(* ===================================================================== *)

Lemma add_apod_to_cache_no_metadata_example :
  add_apod_to_cache home PyStr.posixpath_join env_no_metadata a_date empty_cache
  = (Return 0, empty_cache).
Proof.
  apply add_apod_to_cache_no_metadata. vm_compute. discriminate.
Defined.

Lemma add_apod_to_cache_download_fails_example :
  add_apod_to_cache home PyStr.posixpath_join env_download_fails a_date empty_cache
  = (Return 0,
     World (image_data empty_cache)
       (download_calls empty_cache ++ ["http://x/small.jpg"])
       (save_calls empty_cache) (background empty_cache)).
Proof.
  apply (add_apod_to_cache_download_fails home PyStr.posixpath_join
           env_download_fails a_date empty_cache image_record "Test Image");
    vm_compute; reflexivity.
Defined.

Lemma add_apod_to_cache_save_fails_example :
  add_apod_to_cache home PyStr.posixpath_join env_save_fails a_date empty_cache
  = (Return 0,
     World (Some []) (download_calls empty_cache ++ ["http://x/small.jpg"])
       (save_calls empty_cache ++
          [SaveCall (determine_apod_file_path home PyStr.posixpath_join
                       "Test Image" "http://x/small.jpg")
             (bytes_of_string "abc") false])
       (background empty_cache)).
Proof.
  apply (add_apod_to_cache_save_fails home PyStr.posixpath_join
           env_save_fails a_date empty_cache image_record);
    try (vm_compute; reflexivity).
  intros r [].
Defined.

Lemma add_apod_to_cache_insert_fails_example :
  add_apod_to_cache home PyStr.posixpath_join env_insert_fails a_date empty_cache
  = (Return 0,
     World (Some []) (download_calls empty_cache ++ ["http://x/small.jpg"])
       (save_calls empty_cache ++
          [SaveCall (determine_apod_file_path home PyStr.posixpath_join
                       "Test Image" "http://x/small.jpg")
             (bytes_of_string "abc") true])
       (background empty_cache)).
Proof.
  apply (add_apod_to_cache_insert_fails home PyStr.posixpath_join
           env_insert_fails a_date empty_cache image_record
           "Test Image" "http://x/small.jpg" "An example.");
    try (vm_compute; reflexivity).
  intros r [].
Defined.

Lemma add_apod_to_cache_new_image_example :
  add_apod_to_cache home PyStr.posixpath_join env_ok a_date empty_cache
  = (Return (next_rowid []),
     World (Some ([] ++ [Row (next_rowid []) "Test Image" "An example."
                           (determine_apod_file_path home PyStr.posixpath_join
                              "Test Image" "http://x/small.jpg")
                           (PyStr.upper (Sha256.hexdigest (bytes_of_string "abc")))]))
       (download_calls empty_cache ++ ["http://x/small.jpg"])
       (save_calls empty_cache ++
          [SaveCall (determine_apod_file_path home PyStr.posixpath_join
                       "Test Image" "http://x/small.jpg")
             (bytes_of_string "abc") true])
       (background empty_cache)).
Proof.
  apply (add_apod_to_cache_new_image home PyStr.posixpath_join
           env_ok a_date empty_cache image_record
           "Test Image" "http://x/small.jpg" "An example.");
    try (vm_compute; reflexivity).
  intros r [].
Defined.

Lemma add_apod_to_cache_missing_key_example :
  add_apod_to_cache home PyStr.posixpath_join env_no_title a_date empty_cache
    = (Raise (KeyError "title"), empty_cache)
  /\ add_apod_to_cache home PyStr.posixpath_join env_no_url a_date empty_cache
    = (Raise (KeyError "url"), empty_cache)
  /\ add_apod_to_cache home PyStr.posixpath_join env_no_explanation a_date empty_cache
    = (Raise (KeyError "explanation"),
       World (Some []) (download_calls empty_cache ++ ["http://x/small.jpg"])
         (save_calls empty_cache ++
            [SaveCall (determine_apod_file_path home PyStr.posixpath_join
                         "Test Image" "http://x/small.jpg")
               (bytes_of_string "abc") true])
         (background empty_cache)).
Proof.
  split; [|split].
  - apply (proj1 (add_apod_to_cache_missing_key home PyStr.posixpath_join
                    env_no_title a_date empty_cache (delete "title" image_record)
                    eq_refl)).
    vm_compute. reflexivity.
  - apply (proj1 (proj2 (add_apod_to_cache_missing_key home PyStr.posixpath_join
                    env_no_url a_date empty_cache (delete "url" image_record)
                    eq_refl)) "Test Image");
      vm_compute; reflexivity.
  - apply (proj2 (proj2 (add_apod_to_cache_missing_key home PyStr.posixpath_join
                    env_no_explanation a_date empty_cache
                    (delete "explanation" image_record) eq_refl)));
      try (vm_compute; reflexivity).
    intros r [].
Defined.

(** Two runs, for two pictures: the ids are 1 and 2. *)
Lemma ids_grow_with_position_example :
  exists rows ri rj,
    image_data
      (snd (add_apod_to_cache home PyStr.posixpath_join env_same_title another_date
         (snd (add_apod_to_cache home PyStr.posixpath_join env_ok a_date empty_cache))))
      = Some rows
    /\ rows !! 0%nat = Some ri /\ rows !! 1%nat = Some rj
    /\ ((0 < 1)%nat -> row_id ri < row_id rj)
    /\ (row_id ri = row_id rj -> 0%nat = 1%nat).
Proof.
  eexists; eexists; eexists.
  split; [vm_compute; reflexivity|].
  split; [reflexivity|]. split; [reflexivity|].
  eapply (ids_grow_with_position home PyStr.posixpath_join
           (snd (add_apod_to_cache home PyStr.posixpath_join env_same_title another_date
              (snd (add_apod_to_cache home PyStr.posixpath_join env_ok a_date empty_cache))))).
  - apply reach_add, reach_add,
      (reach_init home PyStr.posixpath_join fresh_world), reach_fresh.
  - vm_compute. reflexivity.
  - reflexivity.
  - reflexivity.
Defined.

(** The row of the first run has its saved file. *)
Lemma every_row_was_saved_example :
  exists rows r,
    image_data (snd (add_apod_to_cache home PyStr.posixpath_join env_ok a_date empty_cache))
      = Some rows
    /\ In r rows
    /\ exists c,
         In c (save_calls
                 (snd (add_apod_to_cache home PyStr.posixpath_join env_ok a_date empty_cache)))
         /\ saved_path c = row_file_path r
         /\ saved_ok c = true
         /\ PyStr.upper (Sha256.hexdigest (saved_data c)) = row_sha256 r.
Proof.
  eexists; eexists.
  split; [vm_compute; reflexivity|].
  split; [left; reflexivity|].
  eapply (every_row_was_saved home PyStr.posixpath_join
           (snd (add_apod_to_cache home PyStr.posixpath_join env_ok a_date empty_cache))).
  - apply reach_add, (reach_init home PyStr.posixpath_join fresh_world), reach_fresh.
  - vm_compute. reflexivity.
  - left. reflexivity.
Defined.

Lemma table_only_grows_example :
  (exists tail calls,
     image_data (snd (add_apod_to_cache home PyStr.posixpath_join env_ok a_date empty_cache))
       = Some ([] ++ tail)
     /\ (List.length tail <= 1)%nat
     /\ save_calls (snd (add_apod_to_cache home PyStr.posixpath_join env_ok a_date empty_cache))
        = save_calls empty_cache ++ calls)
  /\ (exists tail calls,
     image_data (snd (main home PyStr.posixpath_join env_ok a_date empty_cache))
       = Some ([] ++ tail)
     /\ (List.length tail <= 1)%nat
     /\ save_calls (snd (main home PyStr.posixpath_join env_ok a_date empty_cache))
        = save_calls empty_cache ++ calls).
Proof.
  exact (table_only_grows home PyStr.posixpath_join env_ok a_date empty_cache []
           eq_refl).
Defined.

Lemma add_apod_to_db_then_get_apod_info_example :
  exists info,
    get_apod_info 1 (snd (add_apod_to_db env_ok "A" "first" "/c/A.jpg" "aa" empty_cache))
      = (Return info, snd (add_apod_to_db env_ok "A" "first" "/c/A.jpg" "aa" empty_cache))
    /\ info !! "title" = Some "A"
    /\ info !! "explanation" = Some "first"
    /\ info !! "file_path" = Some "/c/A.jpg".
Proof.
  apply add_apod_to_db_then_get_apod_info; [reflexivity | discriminate].
Defined.

(** A first run of [main] on a fresh host. *)
Lemma main_sets_background_example :
  exists rows r,
    image_data (snd (main home PyStr.posixpath_join env_ok a_date fresh_world)) = Some rows
    /\ In r rows /\ row_id r = 1
    /\ fst (main home PyStr.posixpath_join env_ok a_date fresh_world) = Return tt
    /\ background (snd (main home PyStr.posixpath_join env_ok a_date fresh_world))
       = Some (row_file_path r)
    /\ exists c,
         In c (save_calls (snd (main home PyStr.posixpath_join env_ok a_date fresh_world)))
         /\ saved_path c = row_file_path r /\ saved_ok c = true.
Proof.
  apply main_sets_background;
    [apply reach_fresh | vm_compute; reflexivity | discriminate].
Defined.

(** Today and the day of the first APOD are accepted; with no argument the
    date is today. *)
Lemma get_apod_date_range_example :
  get_apod_date (host_of ["2022-05-10"]) = Started (Date 2022 5 10)
  /\ get_apod_date (host_of ["1995-06-16"]) = Started (Date 1995 6 16)
  /\ get_apod_date (host_of []) = Started (Date 2022 5 10).
Proof.
  split; [|split].
  - apply (proj1 (proj2 (get_apod_date_range (host_of ["2022-05-10"])
                           (Date 1995 6 16) eq_refl) (le_n 2))).
    repeat split.
  - apply (proj1 (proj2 (get_apod_date_range (host_of ["1995-06-16"])
                           (Date 1995 6 16) eq_refl) (le_n 2))).
    repeat split.
  - apply (proj1 (get_apod_date_range (host_of []) (Date 1995 6 16) eq_refl)).
    apply le_n.
Defined.

(** A date before the first APOD, and a string that is no date. *)
Lemma run_script_checks_date_first_example :
  run_script home PyStr.posixpath_join (host_of ["1995-06-15"]) env_ok fresh_world
    = (SystemExit "Script execution aborted", fresh_world)
  /\ run_script home PyStr.posixpath_join (host_of ["yesterday"]) env_ok fresh_world
    = (SystemExit "Script execution aborted", fresh_world).
Proof.
  split.
  - apply (proj1 (run_script_checks_date_first home PyStr.posixpath_join
                    (host_of ["1995-06-15"]) env_ok fresh_world (Date 1995 6 16)
                    eq_refl (le_n 2))).
    intros d H. vm_compute in H. injection H as <-. left. reflexivity.
  - apply (proj1 (run_script_checks_date_first home PyStr.posixpath_join
                    (host_of ["yesterday"]) env_ok fresh_world (Date 1995 6 16)
                    eq_refl (le_n 2))).
    intros d H. vm_compute in H. discriminate H.
Defined.

(** "abc" and "abd" under the title "Test Image", both from a [.jpg]. *)
Lemma same_title_overwrites_file_example :
  exists r1 r2,
    image_data
      (snd (add_apod_to_cache home PyStr.posixpath_join env_same_title another_date
         (snd (add_apod_to_cache home PyStr.posixpath_join env_ok a_date empty_cache))))
      = Some ([] ++ [r1; r2])
    /\ row_file_path r1 = row_file_path r2
    /\ row_sha256 r1 = PyStr.upper (Sha256.hexdigest (bytes_of_string "abc"))
    /\ row_sha256 r2 = PyStr.upper (Sha256.hexdigest (bytes_of_string "abd"))
    /\ row_sha256 r1 <> row_sha256 r2
    /\ save_calls
         (snd (add_apod_to_cache home PyStr.posixpath_join env_same_title another_date
            (snd (add_apod_to_cache home PyStr.posixpath_join env_ok a_date empty_cache))))
       = save_calls empty_cache
           ++ [SaveCall (row_file_path r1) (bytes_of_string "abc") true;
               SaveCall (row_file_path r1) (bytes_of_string "abd") true].
Proof.
  apply (same_title_overwrites_file home PyStr.posixpath_join
           env_ok env_same_title a_date another_date empty_cache
           image_record (<["url" := "http://y/other.jpg"]> image_record)
           "Test Image" "http://x/small.jpg" "http://y/other.jpg"
           "An example." "An example.");
    try (vm_compute; reflexivity);
    try (intros r []).
  vm_compute. discriminate.
Defined.

Lemma add_apod_to_db_then_get_apod_id_example :
  get_apod_id_from_db "Aa"
    (snd (add_apod_to_db env_ok "A" "first" "/c/A.jpg" "aA" empty_cache))
  = (Return 1, snd (add_apod_to_db env_ok "A" "first" "/c/A.jpg" "aA" empty_cache)).
Proof.
  refine (proj1 (proj2 (add_apod_to_db_then_get_apod_id home PyStr.posixpath_join
                          env_ok "A" "first" "/c/A.jpg"
                          "aA" empty_cache [] 1 eq_refl eq_refl _)) _ "Aa" eq_refl).
  - discriminate.
  - intros r [].
Defined.

(** The name part for a title with punctuation, and for a title that is
    already a name. *)
Lemma file_name_from_title_example :
  exists name,
    determine_apod_file_path home PyStr.posixpath_join
      "M31: The Andromeda Galaxy" "http://x/m31.jpg" =
      PyStr.posixpath_join (image_cache_dir home PyStr.posixpath_join)
        (name +:+ "." +:+ StrSpec.url_extension "http://x/m31.jpg")
    /\ StrSpec.all_chars PyStr.is_word name = true
    /\ (String.length name <= String.length "M31: The Andromeda Galaxy")%nat
    /\ (StrSpec.all_chars PyStr.is_word "M31: The Andromeda Galaxy" = true ->
        name = "M31: The Andromeda Galaxy").
Proof.
  apply (file_name_from_title home PyStr.posixpath_join
           "M31: The Andromeda Galaxy" "http://x/m31.jpg").
  vm_compute. reflexivity.
Defined.
